(** * ai_diffusion/document.py: the document facade, mask extraction and the pose loop

    A shallow embedding of [src/ai_diffusion/document.py].  The Krita host
    (documents, nodes, selections) is an explicit state that the methods of
    [Document] and [PoseLayers] thread through a small state-and-exception
    monad.  The host calls that show or hide a layer, recomposite, read or
    write pixels, add a child node or add shapes are recorded in a call
    log, so that statements about "which host calls happen, and in which
    order" are statements about that log. *)

From Stdlib Require Import ZArith Floats Strings.Byte Strings.Ascii Strings.String.
From stdpp Require Import base list strings functions gmap.

Local Open Scope Z_scope.

(** ** Python results: a value or a raised exception *)

Inductive exn : Type :=
| ValueError
| OverflowError
| IndexError
| HostError.

Inductive Result (A : Type) : Type :=
| Ok (a : A)
| Raise (e : exn).
Arguments Ok {A} a.
Arguments Raise {A} e.

(** ** Python floats (IEEE binary64) *)

Module PyFloat.

(** [float(n)] for a Python int, rounded to nearest even. *)
Definition of_int (n : Z) : float :=
  SF2Prim (binary_normalize prec emax n 0 false).

(** A finite float [(-1)^s * m * 2^e] as a fraction of integers. *)
Definition fraction (s : bool) (m : positive) (e : Z) : Z * Z :=
  let num := if s then Z.neg m else Z.pos m in
  if 0 <=? e then (num * 2 ^ e, 1) else (num, 2 ^ (- e)).

(** [int(f)]: truncation toward zero; NaN and the infinities raise. *)
Definition int (f : float) : Result Z :=
  match Prim2SF f with
  | S754_nan => Raise ValueError
  | S754_infinity _ => Raise OverflowError
  | S754_zero _ => Ok 0
  | S754_finite s m e => let '(num, den) := fraction s m e in Ok (Z.quot num den)
  end.

(** [math.floor(f)]: rounding toward minus infinity; same exceptions. *)
Definition floor (f : float) : Result Z :=
  match Prim2SF f with
  | S754_nan => Raise ValueError
  | S754_infinity _ => Raise OverflowError
  | S754_zero _ => Ok 0
  | S754_finite s m e => let '(num, den) := fraction s m e in Ok (num / den)
  end.

Definition is_finite (f : float) : bool :=
  match Prim2SF f with
  | S754_zero _ | S754_finite _ _ _ => true
  | _ => false
  end.

(** The float is not below zero: NaN, both zeros, positive numbers and
    [+inf] qualify; only negative numbers and [-inf] do not. *)
Definition not_negative (f : float) : Prop :=
  match Prim2SF f with
  | S754_finite true _ _ | S754_infinity true => False
  | _ => True
  end.

End PyFloat.

(** ** Geometry: [Extent] and [Bounds] of image.py *)

Module Extent.

Record t : Type := mk { width : Z; height : Z }.

(** Modelled from the spec: image.py is not among the sources; section 3
    gives [diagonal = sqrt(width² + height²)] as a float. *)
Definition diagonal (e : t) : float :=
  PrimFloat.sqrt (PyFloat.of_int (width e ^ 2 + height e ^ 2)).

(** Modelled from the spec: image.py is not among the sources; section 3
    gives [pixel_count = width * height]. *)
Definition pixel_count (e : t) : Z := width e * height e.

End Extent.

(** A host rectangle, as [layer.bounds()] returns it. *)
Record QRect : Type := mkQRect { qr_x : Z; qr_y : Z; qr_width : Z; qr_height : Z }.

Module Bounds.

Record t : Type := mk { x : Z; y : Z; width : Z; height : Z }.

#[global] Instance eq_dec : EqDecision t.
Proof. solve_decision. Defined.

Definition extent (b : t) : Extent.t := Extent.mk (width b) (height b).

(** Modelled from the spec: image.py is not among the sources; section 3
    lists the conversion from a host rectangle. *)
Definition from_qrect (r : QRect) : t :=
  mk (qr_x r) (qr_y r) (qr_width r) (qr_height r).

(** Round [n] up to the next multiple of [m]. *)
Definition multiple_of (n m : Z) : Z := (n + m - 1) / m * m.

(** Modelled from the spec: image.py is not among the sources; section 4.1:
    "expand by margin pixels on every side (x -= margin, y -= margin,
    width += 2*margin, height += 2*margin), then round width and height up
    to the next multiple of multiple (padding added on the trailing edge
    only)". *)
Definition pad (b : t) (margin multiple : Z) : t :=
  mk (x b - margin) (y b - margin)
     (multiple_of (width b + 2 * margin) multiple)
     (multiple_of (height b + 2 * margin) multiple).

(** Modelled from the spec: image.py is not among the sources; section 4.1:
    "intersect with the document extent"; an input fully outside yields a
    rectangle of zero width or height. *)
Definition clamp (b : t) (e : Extent.t) : t :=
  let x0 := Z.max 0 (Z.min (x b) (Extent.width e)) in
  let y0 := Z.max 0 (Z.min (y b) (Extent.height e)) in
  let x1 := Z.max x0 (Z.min (x b + width b) (Extent.width e)) in
  let y1 := Z.max y0 (Z.min (y b + height b) (Extent.height e)) in
  mk x0 y0 (x1 - x0) (y1 - y0).

End Bounds.

(** ** Pixel buffers *)

Definition QByteArray : Type := list byte.

(** An image: its extent and its bytes, four per pixel. *)
Record Image : Type := mkImage { img_extent : Extent.t; img_data : QByteArray }.

(** Modelled from the spec: image.py is not among the sources; section 3
    makes an image a 4-channel buffer of [pixel_count * 4] bytes, and
    [Image.create(extent, fill=0)] fills it with zero bytes. *)
Definition Image_create (e : Extent.t) : Image :=
  mkImage e (replicate (Z.to_nat (Extent.pixel_count e * 4)) x00).

(** [Image(QImage(data, width, height, QImage.Format_ARGB32))]: an image of
    that extent over the first [width * height * 4] bytes of [data].  The
    constructor checks nothing: when [data] is shorter, what the image holds
    past its end is not determined by the source, and the model keeps only
    the bytes there are. *)
Definition QImage (data : QByteArray) (e : Extent.t) : Image :=
  mkImage e (take (Z.to_nat (Extent.width e * Extent.height e * 4)) data).

Record Mask : Type := mkMask { mask_bounds : Bounds.t; mask_data : QByteArray }.

(** ** [str.format] with positional fields [{0}] .. [{9}] *)

Definition digit_of (c : ascii) : option nat :=
  let n := nat_of_ascii c in
  if ((48 <=? n) && (n <=? 57))%nat then Some (n - 48)%nat else None.

Fixpoint format (fmt : string) (args : list string) : string :=
  match fmt with
  | EmptyString => EmptyString
  | String c rest =>
      match c, rest with
      | "{"%char, String d (String "}"%char rest') =>
          match digit_of d with
          | Some i => String.append (nth i args EmptyString) (format rest' args)
          | None => String c (format rest args)
          end
      | _, _ => String c (format rest args)
      end
  end.

(** ** The Krita host *)

(** A node handle.  Two handles are equal exactly when they denote the same
    node, and the handle doubles as the node's [uniqueId()]. *)
Abbreviation QUuid := nat (only parsing).

(** A vector shape, by its SVG text. *)
Definition Shape : Type := string.

Record Node : Type := mkNode {
  node_name : string;
  node_type : string;
  node_visible : bool;
  node_bounds : QRect;
  node_shapes : list Shape }.

(** A selection object: its bounding rectangle and [pixelData(x, y, w, h)]. *)
Record Selection : Type := mkSelection {
  sel_x : Z;
  sel_y : Z;
  sel_width : Z;
  sel_height : Z;
  sel_pixelData : Z -> Z -> Z -> Z -> QByteArray }.

(** The host calls the facade issues, in the order it issues them. *)
Inductive Call : Type :=
| SetVisible (n : QUuid) (v : bool)
| RefreshProjection
| PixelData (b : Bounds.t)
| SetPixelData (n : QUuid) (data : QByteArray) (b : Bounds.t)
| AddChildNode (child : QUuid) (above : option QUuid)
| AddShapesFromSvg (n : QUuid) (svg : string).

(** The document behind [self._doc], with the objects reachable from it.
    [pixelData] answers [None] when the host read raises.  Nodes and
    selections live in stores indexed by handle, so that a mutation through
    one handle is seen through every alias of it. *)
Record Doc : Type := mkDoc {
  doc_width : Z;
  doc_height : Z;
  colorModel : string;
  colorDepth : string;
  resolution : Z;
  pixelData : Bounds.t -> option QByteArray;
  activeNode : option QUuid;
  selection : option nat;
  childNodes : list QUuid;
  nodes : QUuid -> Node;
  next_node : QUuid;
  selections : nat -> Selection;
  next_selection : nat;
  calls : list Call }.

Definition with_calls (c : list Call) (d : Doc) : Doc :=
  mkDoc (doc_width d) (doc_height d) (colorModel d) (colorDepth d) (resolution d)
    (pixelData d) (activeNode d) (selection d) (childNodes d) (nodes d)
    (next_node d) (selections d) (next_selection d) c.

Definition with_nodes (f : QUuid -> Node) (next : QUuid) (d : Doc) : Doc :=
  mkDoc (doc_width d) (doc_height d) (colorModel d) (colorDepth d) (resolution d)
    (pixelData d) (activeNode d) (selection d) (childNodes d) f
    next (selections d) (next_selection d) (calls d).

Definition with_childNodes (l : list QUuid) (d : Doc) : Doc :=
  mkDoc (doc_width d) (doc_height d) (colorModel d) (colorDepth d) (resolution d)
    (pixelData d) (activeNode d) (selection d) l (nodes d)
    (next_node d) (selections d) (next_selection d) (calls d).

Definition with_selections (f : nat -> Selection) (next : nat) (d : Doc) : Doc :=
  mkDoc (doc_width d) (doc_height d) (colorModel d) (colorDepth d) (resolution d)
    (pixelData d) (activeNode d) (selection d) (childNodes d) (nodes d)
    (next_node d) f next (calls d).

Definition set_visible (v : bool) (n : Node) : Node :=
  mkNode (node_name n) (node_type n) v (node_bounds n) (node_shapes n).

Definition add_shapes (l : list Shape) (n : Node) : Node :=
  mkNode (node_name n) (node_type n) (node_visible n) (node_bounds n) (node_shapes n ++ l).

(** ** Methods run in a state-and-exception monad over the document *)

Definition M (A : Type) : Type := Doc -> Result A * Doc.

Definition ret {A} (a : A) : M A := fun d => (Ok a, d).

Definition raise {A} (e : exn) : M A := fun d => (Raise e, d).

Definition bind {A B} (m : M A) (k : A -> M B) : M B :=
  fun d => match m d with
           | (Ok a, d') => k a d'
           | (Raise e, d') => (Raise e, d')
           end.

Notation "x <- c1 ;; c2" := (bind c1 (fun x => c2))
  (at level 100, c1 at next level, right associativity).
Notation "c1 ;; c2" := (bind c1 (fun _ => c2))
  (at level 100, right associativity).

Definition gets {A} (f : Doc -> A) : M A := fun d => (Ok (f d), d).

Definition lift {A} (r : Result A) : M A := fun d => (r, d).

Definition when (b : bool) (m : M unit) : M unit := if b then m else ret tt.

Definition log (c : Call) : M unit := fun d => (Ok tt, with_calls (calls d ++ [c]) d).

(** *** Host calls *)

Definition setVisible (n : QUuid) (v : bool) : M unit :=
  fun d => log (SetVisible n v)
             (with_nodes (<[n := set_visible v (nodes d n)]> (nodes d)) (next_node d) d).

Definition refreshProjection : M unit := log RefreshProjection.

(** [self._doc.pixelData] over a rectangle: the read is issued, then
    answers or raises. *)
Definition doc_pixelData (b : Bounds.t) : M QByteArray :=
  log (PixelData b) ;;
  r <- gets (fun d => pixelData d b) ;;
  match r with
  | Some data => ret data
  | None => raise HostError
  end.

(** [layer.setPixelData] of a buffer into a rectangle.  What the layer then holds, and how
    its bounds follow from that, stays inside the host. *)
Definition setPixelData (n : QUuid) (data : QByteArray) (b : Bounds.t) : M unit :=
  log (SetPixelData n data b).

(** [createNode(name, type)] and [createVectorLayer(name)]: a fresh, visible,
    empty node that is not yet part of the tree. *)
Definition createNode (name type : string) : M QUuid :=
  fun d => let n := next_node d in
           (Ok n, with_nodes (<[n := mkNode name type true (mkQRect 0 0 0 0) []]> (nodes d)) (S n) d).

(** [sel.duplicate()]: a new selection object with the same content. *)
Definition duplicate (r : nat) : M nat :=
  fun d => let r' := next_selection d in
           (Ok r', with_selections (<[r' := selections d r]> (selections d)) (S r') d).

Definition update_selection (r : nat) (f : Selection -> Selection) : M unit :=
  fun d => (Ok tt, with_selections (<[r := f (selections d r)]> (selections d)) (next_selection d) d).

Definition extent (d : Doc) : Extent.t := Extent.mk (doc_width d) (doc_height d).

(** ** [Document.check_color_mode] *)

Definition msg_fmt : string :=
  "Incompatible document: Color {0} must be {1} (current {0}: {2})".

Definition check_color_mode (d : Doc) : bool * option string :=
  let model := colorModel d in
  if negb (String.eqb model "RGBA") then
    (false, Some (format msg_fmt ["model"; "RGB/Alpha"; model]))
  else
    let depth := colorDepth d in
    if negb (String.eqb depth "U8") then
      (false, Some (format msg_fmt ["depth"; "8-bit integer"; depth]))
    else (true, None).

(** ** [_selection_is_entire_document] *)

Definition selection_bounds (s : Selection) : Bounds.t :=
  Bounds.mk (sel_x s) (sel_y s) (sel_width s) (sel_height s).

Definition read_selection (s : Selection) (b : Bounds.t) : QByteArray :=
  sel_pixelData s (Bounds.x b) (Bounds.y b) (Bounds.width b) (Bounds.height b).

Definition is_opaque (mask : QByteArray) : bool :=
  forallb (fun x => Byte.eqb x xff) mask.

Definition _selection_is_entire_document (s : Selection) (extent : Extent.t) : bool :=
  let bounds := selection_bounds s in
  if (Bounds.x bounds >? 0) || (Bounds.y bounds >? 0) then false
  else if (Bounds.width bounds + Bounds.x bounds <? Extent.width extent)
          || (Bounds.height bounds + Bounds.y bounds <? Extent.height extent) then false
  else
    let mask := read_selection s bounds in
    is_opaque mask.

(** ** [_find_layer_above] *)

(** [nodes.index(x)]: the first position holding [x], if any. *)
Fixpoint index (x : QUuid) (l : list QUuid) : option nat :=
  match l with
  | [] => None
  | y :: l' => if decide (y = x) then Some 0%nat else S <$> index x l'
  end.

Definition _find_layer_above (layer_below : option QUuid) : M (option QUuid) :=
  match layer_below with
  | Some layer =>
      nodes <- gets childNodes ;;
      match index layer nodes with
      | None => raise ValueError
      | Some i =>
          if (1 <=? i)%nat then
            match nodes !! (i - 1)%nat with
            | Some above => ret (Some above)
            | None => raise IndexError
            end
          else ret None
      end
  | None => ret None
  end.

Section Document.

(** What the host does to a selection object on [grow(x, y)] and
    [feather(radius)], the shapes it parses out of an SVG fragment, and the
    sibling list it makes of [addChildNode(child, above)]: where a child
    lands relative to its anchor, and where without one, is the host's
    contract and not fixed by the sources. *)
Variable host_grow : Z -> Z -> Selection -> Selection.
Variable host_feather : Z -> Selection -> Selection.
Variable svg_shapes : string -> list Shape.
Variable host_addChildNode : QUuid -> option QUuid -> list QUuid -> list QUuid.

(** [rootNode().addChildNode(child, above)]. *)
Definition addChildNode (child : QUuid) (above : option QUuid) : M unit :=
  log (AddChildNode child above) ;;
  (fun d => (Ok tt, with_childNodes (host_addChildNode child above (childNodes d)) d)).

Definition addShapesFromSvg (n : QUuid) (svg : string) : M unit :=
  log (AddShapesFromSvg n svg) ;;
  (fun d => (Ok tt, with_nodes (<[n := add_shapes (svg_shapes svg) (nodes d n)]> (nodes d))
                      (next_node d) d)).

(** ** [Document.create_mask_from_selection] *)

Definition create_mask_from_selection (grow feather : float) : M (option Mask) :=
  user_selection <- gets selection ;;
  match user_selection with
  | None => ret None
  | Some user_selection =>
      us <- gets (fun d => selections d user_selection) ;;
      doc_extent <- gets extent ;;
      if _selection_is_entire_document us doc_extent then ret None
      else
        selection <- duplicate user_selection ;;
        s <- gets (fun d => selections d selection) ;;
        let size_factor := Extent.diagonal (Extent.mk (sel_width s) (sel_height s)) in
        grow_pixels <- lift (PyFloat.int (PrimFloat.mul grow size_factor)) ;;
        feather_radius <- lift (PyFloat.int (PrimFloat.mul feather size_factor)) ;;
        when (grow_pixels >? 0)
          (update_selection selection (host_grow grow_pixels grow_pixels)) ;;
        when (feather_radius >? 0)
          (update_selection selection (host_feather feather_radius)) ;;
        s <- gets (fun d => selections d selection) ;;
        let bounds := selection_bounds s in
        let bounds := Bounds.pad bounds feather_radius 8 in
        doc_extent <- gets extent ;;
        let bounds := Bounds.clamp bounds doc_extent in
        let data := read_selection s bounds in
        ret (Some (mkMask bounds data))
  end.

(** ** [Document.get_image] *)

Definition get_image (bounds : option Bounds.t) (exclude_layer : option QUuid) : M Image :=
  restore_layer <-
    match exclude_layer with
    | Some layer =>
        visible <- gets (fun d => node_visible (nodes d layer)) ;;
        if visible then
          setVisible layer false ;;
          refreshProjection ;;
          ret true
        else ret false
    | None => ret false
    end ;;
  bounds <-
    match bounds with
    | Some b => ret b
    | None => gets (fun d => Bounds.mk 0 0 (doc_width d) (doc_height d))
    end ;;
  data <- doc_pixelData bounds ;;
  let img := QImage data (Bounds.extent bounds) in
  match exclude_layer, restore_layer with
  | Some layer, true =>
      setVisible layer true ;;
      refreshProjection
  | _, _ => ret tt
  end ;;
  ret img.

(** ** [Document.insert_layer] and [Document.insert_vector_layer] *)

Definition insert_layer (name : string) (img : Image) (bounds : Bounds.t)
    (below : option QUuid) : M QUuid :=
  layer <- createNode name "paintlayer" ;;
  above <- _find_layer_above below ;;
  addChildNode layer above ;;
  setPixelData layer (img_data img) bounds ;;
  refreshProjection ;;
  ret layer.

Definition insert_vector_layer (name svg : string) (below : option QUuid) : M QUuid :=
  layer <- createNode name "vectorlayer" ;;
  above <- _find_layer_above below ;;
  addChildNode layer above ;;
  addShapesFromSvg layer svg ;;
  refreshProjection ;;
  ret layer.

(** ** [Document.set_layer_content] and [Document.hide_layer] *)

Definition set_layer_content (layer : QUuid) (img : Image) (bounds : Bounds.t) : M QUuid :=
  layer_bounds <- gets (fun d => Bounds.from_qrect (node_bounds (nodes d layer))) ;;
  when (negb (bool_decide (layer_bounds = bounds)))
    (let blank := Image_create (Bounds.extent layer_bounds) in
     setPixelData layer (img_data blank) layer_bounds) ;;
  setPixelData layer (img_data img) bounds ;;
  setVisible layer true ;;
  refreshProjection ;;
  ret layer.

Definition hide_layer (layer : QUuid) : M QUuid :=
  setVisible layer false ;;
  refreshProjection ;;
  ret layer.

End Document.

(** ** [PoseLayers]: the pose synchronization loop *)

(** [Document.resolution]: [self._doc.resolution() / 72.0]. *)
Definition doc_resolution (d : Doc) : float :=
  PrimFloat.div (PyFloat.of_int (resolution d)) (PyFloat.of_int 72).

(** Truthiness of [changes]: [None] and the empty string are false. *)
Definition truthy (changes : option string) : bool :=
  match changes with
  | Some (String _ _) => true
  | _ => false
  end.

(** A tick observes [layer] when there is an active document whose active
    layer is [layer] and is a vector layer. *)
Definition observes (active : option Doc) (layer : QUuid) : Prop :=
  exists doc, active = Some doc /\ activeNode doc = Some layer /\
              node_type (nodes doc layer) = "vectorlayer".

Section PoseLoop.

(** pose.py is not among the sources: the skeleton model is a parameter.
    [Pose_new extent] is [Pose(extent)]; [Pose_update p shapes resolution]
    is [p.update(shapes, resolution)], giving the model as the call leaves
    it and the SVG fragment it returns, if any. *)
Variable Pose : Type.
Variable Pose_new : Extent.t -> Pose.
Variable Pose_update : Pose -> list Shape -> float -> Pose * option string.
Variable svg_shapes : string -> list Shape.

(** The class attribute [_layers] maps a layer's unique id to a [Pose]
    object; the objects live in a store, so that the binding of an id to
    its object is told apart from the state of that object. *)
Record PoseLayers : Type := mkPoseLayers {
  _layers : gmap QUuid nat;
  poses : nat -> Pose;
  next_pose : nat }.

(** [dict.setdefault(key, default)]. *)
Definition setdefault (key : QUuid) (default : nat) (m : gmap QUuid nat)
    : gmap QUuid nat * nat :=
  match m !! key with
  | Some v => (m, v)
  | None => (<[key := default]> m, default)
  end.

(** [PoseLayers.update], one timer tick.  [active] is what
    [Krita.instance().activeDocument()] answers at that moment. *)
Definition update (active : option Doc) (self : PoseLayers) : PoseLayers * option Doc :=
  match active with
  | None => (self, active)
  | Some doc =>
      match activeNode doc with
      | None => (self, active)
      | Some layer =>
          if negb (String.eqb (node_type (nodes doc layer)) "vectorlayer") then (self, active)
          else
            let fresh := next_pose self in
            let store := <[fresh := Pose_new (extent doc)]> (poses self) in
            let '(layers, pose) := setdefault layer fresh (_layers self) in
            let '(model, changes) :=
              Pose_update (store pose) (node_shapes (nodes doc layer)) (doc_resolution doc) in
            let self' := mkPoseLayers layers (<[pose := model]> store) (S fresh) in
            if truthy changes then
              (self', Some (snd (addShapesFromSvg svg_shapes layer (default EmptyString changes) doc)))
            else (self', active)
      end
  end.

(** The loop over the process lifetime: between two ticks the host and the
    user may change the active document in any way, so each tick meets an
    arbitrary one; only [update] touches the [PoseLayers] state. *)
Fixpoint run (ticks : list (option Doc)) (self : PoseLayers) : PoseLayers :=
  match ticks with
  | [] => self
  | active :: ticks' => run ticks' (fst (update active self))
  end.

End PoseLoop.

Arguments mkPoseLayers {Pose} _ _ _.
Arguments _layers {Pose} _.
Arguments poses {Pose} _ _.
Arguments next_pose {Pose} _.
Arguments setdefault key default m : simpl never.
Arguments update {Pose} Pose_new Pose_update svg_shapes active self.
Arguments run {Pose} Pose_new Pose_update svg_shapes ticks self.

(** ** [Document.get_layer_image] *)

(** The outcome of a method guarded by [assert]. *)
Inductive Asserted (A : Type) : Type :=
| Returns (a : A)
| AssertionError.
Arguments Returns {A} a.
Arguments AssertionError {A}.

Section LayerImage.

(** [layer.projectionPixelData(x, y, w, h)] as the host answers it for a
    layer of the document; [None] is Python's [None]. *)
Variable projectionPixelData : Doc -> QUuid -> Bounds.t -> option QByteArray.

Definition get_layer_image (layer : QUuid) (bounds : option Bounds.t) (d : Doc)
    : Asserted Image :=
  let bounds :=
    match bounds with
    | Some b => b
    | None => Bounds.from_qrect (node_bounds (nodes d layer))
    end in
  match projectionPixelData d layer bounds with
  | Some data =>
      if Extent.pixel_count (Bounds.extent bounds) * 4 <=? Z.of_nat (length data)
      then Returns (QImage data (Bounds.extent bounds))
      else AssertionError
  | None => AssertionError
  end.

End LayerImage.

(** ** The layer tree: [_traverse_layers], [image_layers], [find_layer] *)

Module Tree.

(** A node as [rootNode()] and [childNodes()] hand it out: its unique id,
    its type tag and its children. *)
#[warnings="-register-all"]
Inductive t : Type := mk (uniqueId : QUuid) (type : string) (childNodes : list t).

Definition uniqueId (n : t) : QUuid := match n with mk u _ _ => u end.
Definition type (n : t) : string := match n with mk _ ty _ => ty end.
Definition childNodes (n : t) : list t := match n with mk _ _ cs => cs end.

End Tree.

(** [not type_filter or child.type() in type_filter]: no filter and the
    empty filter let every node through. *)
Definition passes (type_filter : option (list string)) (child : Tree.t) : bool :=
  match type_filter with
  | None | Some [] => true
  | Some types => existsb (String.eqb (Tree.type child)) types
  end.

(** The generator [_traverse_layers], by the list of what it yields. *)
Fixpoint _traverse_layers (type_filter : option (list string)) (node : Tree.t)
    : list Tree.t :=
  match node with
  | Tree.mk _ _ children =>
      (fix each (l : list Tree.t) : list Tree.t :=
         match l with
         | [] => []
         | child :: l' =>
             _traverse_layers type_filter child
             ++ (if passes type_filter child then [child] else [])
             ++ each l'
         end) children
  end.

Definition allowed_layer_types : list string :=
  ["paintlayer"; "vectorlayer"; "grouplayer"].

(** [Document.image_layers], for the tree [self._doc.rootNode()] answers. *)
Definition image_layers (root : Tree.t) : list Tree.t :=
  _traverse_layers (Some allowed_layer_types) root.

(** [Document.find_layer]: the first layer of [image_layers] with the id. *)
Definition find_layer (id : QUuid) (root : Tree.t) : option Tree.t :=
  List.find (fun layer => Nat.eqb (Tree.uniqueId layer) id) (image_layers root).

(** [x] lies strictly below [t] in the tree. *)
Inductive descendant (x : Tree.t) : Tree.t -> Prop :=
| descendant_child t : In x (Tree.childNodes t) -> descendant x t
| descendant_below c t : In c (Tree.childNodes t) -> descendant x c -> descendant x t.

(** ** An invariant of the pose-model map *)

(** Every bound pose object has been allocated, and no two ids share one. *)
Definition separated {Pose : Type} (self : PoseLayers Pose) : Prop :=
  (forall key pose, _layers self !! key = Some pose -> (pose < next_pose self)%nat) /\
  (forall key key' pose,
     _layers self !! key = Some pose -> _layers self !! key' = Some pose -> key = key').

(** ** Sample inputs *)

Definition sample_node : Node :=
  mkNode "Layer" "paintlayer" true (mkQRect 0 0 4 4) [].

Definition sample_doc (model depth : string) : Doc :=
  mkDoc 100 100 model depth 72 (fun _ => Some []) None None [] (fun _ => sample_node) 0
    (fun _ => mkSelection 0 0 0 0 (fun _ _ _ _ => [])) 0 [].

(** A host whose [grow] and [feather] widen the selection's rectangle by
    the given amount on every side. *)
Definition sample_grow (gx gy : Z) (s : Selection) : Selection :=
  mkSelection (sel_x s - gx) (sel_y s - gy) (sel_width s + 2 * gx) (sel_height s + 2 * gy)
    (sel_pixelData s).

Definition sample_feather (r : Z) (s : Selection) : Selection :=
  mkSelection (sel_x s - r) (sel_y s - r) (sel_width s + 2 * r) (sel_height s + 2 * r)
    (sel_pixelData s).

(** A fully selected rectangle: 0xFF inside it, 0x00 outside. *)
Definition rect_selection (x y w h : Z) : Selection :=
  mkSelection x y w h
    (fun x' y' w' h' =>
       flat_map (fun row =>
         map (fun col =>
                if (x <=? col) && (col <? x + w) && (y <=? row) && (row <? y + h)
                then xff else x00)
             (seqZ x' w'))
         (seqZ y' h')).

(** A document of the given size whose live selection is object 0. *)
Definition doc_with_selection (w h : Z) (s : Selection) : Doc :=
  mkDoc w h "RGBA" "U8" 72 (fun _ => Some []) None (Some 0%nat) [] (fun _ => sample_node) 0
    (fun _ => s) 1 [].

(** A 4x4 document whose fully opaque selection starts one pixel left of it. *)
Definition overhang_doc : Doc := doc_with_selection 4 4 (rect_selection (-1) 0 5 4).

(** A 100x100 document with a fully opaque 5x5 selection at (10, 10). *)
Definition small_selection_doc : Doc := doc_with_selection 100 100 (rect_selection 10 10 5 5).

(** A 100x100 document with a 30x40 selection at (10, 10); its diagonal is 50. *)
Definition steps_doc : Doc := doc_with_selection 100 100 (rect_selection 10 10 30 40).

(** A 4x4 document that is selected exactly and fully. *)
Definition full_doc : Doc := doc_with_selection 4 4 (rect_selection 0 0 4 4).

(** A document whose composited-image read answers four 0xFF bytes per
    pixel of the rectangle asked for. *)
Definition readable_doc : Doc :=
  mkDoc 100 100 "RGBA" "U8" 72
    (fun b => Some (replicate (Z.to_nat (Bounds.width b * Bounds.height b * 4)) xff))
    None None [] (fun _ => sample_node) 0
    (fun _ => mkSelection 0 0 0 0 (fun _ _ _ _ => [])) 0 [].

(** A document whose composited-image read raises. *)
Definition failing_read_doc : Doc :=
  mkDoc 100 100 "RGBA" "U8" 72 (fun _ => None) None None [] (fun _ => sample_node) 0
    (fun _ => mkSelection 0 0 0 0 (fun _ _ _ _ => [])) 0 [].

(** A document whose layers are all hidden. *)
Definition hidden_layer_doc : Doc :=
  mkDoc 100 100 "RGBA" "U8" 72 (fun _ => Some []) None None []
    (fun _ => set_visible false sample_node) 0
    (fun _ => mkSelection 0 0 0 0 (fun _ _ _ _ => [])) 0 [].

(** A document with three top-level layers 0, 1 and 2; handle 7 is a layer
    that is not among them. *)
Definition three_layer_doc : Doc :=
  mkDoc 100 100 "RGBA" "U8" 72 (fun _ => Some []) None None [0; 1; 2]%nat
    (fun _ => sample_node) 8
    (fun _ => mkSelection 0 0 0 0 (fun _ _ _ _ => [])) 0 [].

(** A host that puts a child right after its anchor in the sibling list,
    and last when there is no anchor. *)
Fixpoint sample_addChildNode (child : QUuid) (above : option QUuid) (l : list QUuid)
    : list QUuid :=
  match l with
  | [] => [child]
  | y :: l' =>
      if bool_decide (above = Some y) then y :: child :: l'
      else y :: sample_addChildNode child above l'
  end.

Definition sample_image : Image := mkImage (Extent.mk 1 1) [xff; xff; xff; xff].

(** A host that turns an SVG fragment into one shape. *)
Definition sample_svg_shapes (svg : string) : list Shape := [svg].

(** A skeleton model that remembers the shapes it saw last and asks for a
    correction exactly when they changed. *)
Definition sample_pose_new (e : Extent.t) : list Shape := [].

Definition sample_pose_update (p : list Shape) (shapes : list Shape) (resolution : float)
    : list Shape * option string :=
  if bool_decide (p = shapes) then (p, None) else (shapes, Some "<g/>").

(** A document whose active layer 3 is a vector layer with one shape. *)
Definition pose_doc : Doc :=
  mkDoc 64 48 "RGBA" "U8" 72 (fun _ => Some []) (Some 3%nat) None [3%nat]
    (fun _ => mkNode "Pose" "vectorlayer" true (mkQRect 0 0 64 48) ["<circle/>"]) 4
    (fun _ => mkSelection 0 0 0 0 (fun _ _ _ _ => [])) 0 [].

(** A document whose active layer 0 is a paint layer. *)
Definition paint_doc : Doc :=
  mkDoc 64 48 "RGBA" "U8" 72 (fun _ => Some []) (Some 0%nat) None [0%nat]
    (fun _ => sample_node) 1
    (fun _ => mkSelection 0 0 0 0 (fun _ _ _ _ => [])) 0 [].

Definition no_poses : PoseLayers (list Shape) := mkPoseLayers ∅ (fun _ => []) 0.

(** A layer tree: a paint layer 1, a group 2 holding a vector layer 3 and a
    filter mask 4, and a clone layer 5 (a type that is not recognised)
    holding a paint layer 6. *)
Definition sample_tree : Tree.t :=
  Tree.mk 0 "grouplayer"
    [Tree.mk 1 "paintlayer" [];
     Tree.mk 2 "grouplayer" [Tree.mk 3 "vectorlayer" []; Tree.mk 4 "filtermask" []];
     Tree.mk 5 "clonelayer" [Tree.mk 6 "paintlayer" []]]%nat.

(** A host whose layers answer 16 bytes for every rectangle. *)
Definition sample_projection (d : Doc) (layer : QUuid) (b : Bounds.t) : option QByteArray :=
  Some (replicate 16 xff).

(** * Properties *)

(** ** Color-mode validation *)

Example check_color_mode_rgba_u8 :
  check_color_mode (sample_doc "RGBA" "U8") = (true, None).
Proof. reflexivity. Qed.

Example check_color_mode_cmyk :
  check_color_mode (sample_doc "CMYK" "U8")
  = (false, Some "Incompatible document: Color model must be RGB/Alpha (current model: CMYK)").
Proof. reflexivity. Qed.

Example check_color_mode_u16 :
  check_color_mode (sample_doc "RGBA" "U16")
  = (false, Some "Incompatible document: Color depth must be 8-bit integer (current depth: U16)").
Proof. reflexivity. Qed.

(** C6: [check_color_mode] answers [(True, None)] if and only if the color
    model is "RGBA" and the color depth is "U8".  Otherwise it answers
    [False] with a message: when the model is wrong (checked first) the
    message names "model", the required "RGB/Alpha" and the actual model;
    when the model is right and the depth is wrong it names "depth", the
    required "8-bit integer" and the actual depth. *)
Theorem check_color_mode_spec (d : Doc) :
  (check_color_mode d = (true, None) <-> colorModel d = "RGBA" /\ colorDepth d = "U8") /\
  (colorModel d <> "RGBA" ->
   check_color_mode d =
     (false, Some (String.append "Incompatible document: Color model must be RGB/Alpha (current model: "
                     (String.append (colorModel d) ")")))) /\
  (colorModel d = "RGBA" -> colorDepth d <> "U8" ->
   check_color_mode d =
     (false, Some (String.append "Incompatible document: Color depth must be 8-bit integer (current depth: "
                     (String.append (colorDepth d) ")")))).
Proof.
  unfold check_color_mode.
  destruct (String.eqb_spec (colorModel d) "RGBA") as [Hm | Hm];
    destruct (String.eqb_spec (colorDepth d) "U8") as [Hd | Hd]; simpl negb; cbv iota.
  - split; [tauto | split; intros; congruence].
  - split; [| split].
    + split; [discriminate | tauto].
    + congruence.
    + intros _ _. reflexivity.
  - split; [| split].
    + split; [discriminate | tauto].
    + intros _. reflexivity.
    + congruence.
  - split; [| split].
    + split; [discriminate | tauto].
    + intros _. reflexivity.
    + congruence.
Qed.

(** ** Python floats: [int] against [floor] *)

Lemma fraction_den_pos s m e : 0 < snd (PyFloat.fraction s m e).
Proof.
  unfold PyFloat.fraction. destruct (0 <=? e) eqn:He; simpl; [lia |].
  apply Z.pow_pos_nonneg; lia.
Qed.

Lemma fraction_num_nonneg m e : 0 <= fst (PyFloat.fraction false m e).
Proof.
  unfold PyFloat.fraction. destruct (0 <=? e) eqn:He; simpl; [| lia].
  apply Z.mul_nonneg_nonneg; [lia |]. apply Z.pow_nonneg. lia.
Qed.

(** On a float that is not below zero, truncation and floor agree. *)
Lemma int_floor_not_negative f :
  PyFloat.not_negative f -> PyFloat.int f = PyFloat.floor f.
Proof.
  unfold PyFloat.not_negative, PyFloat.int, PyFloat.floor.
  destruct (Prim2SF f) as [s | s | | s m e]; try reflexivity.
  destruct s; [intros [] |]. intros _.
  pose proof (fraction_den_pos false m e) as Hd.
  pose proof (fraction_num_nonneg m e) as Hn.
  destruct (PyFloat.fraction false m e) as [num den]. simpl in *.
  f_equal. apply Z.quot_div_nonneg; lia.
Qed.

Lemma binary_round_aux_sign mx ex lx :
  match binary_round_aux prec emax false mx ex lx with
  | S754_finite true _ _ | S754_infinity true => False
  | _ => True
  end.
Proof.
  unfold binary_round_aux.
  destruct (shr_fexp prec emax mx ex lx) as [mrs e'].
  destruct (shr_fexp prec emax _ e' loc_Exact) as [mrs' e''].
  destruct (shr_m mrs'); try exact I.
  destruct (Z.leb e'' (Z.sub emax prec)); exact I.
Qed.

Lemma sqrt_not_negative x : PyFloat.not_negative (PrimFloat.sqrt x).
Proof.
  unfold PyFloat.not_negative. rewrite sqrt_spec.
  unfold SF64sqrt, SFsqrt.
  destruct (Prim2SF x) as [s | s | | s m e]; try exact I; try (destruct s; exact I).
  destruct s; [exact I |].
  destruct (SFsqrt_core_binary prec emax (Z.pos m) e) as [[mz ez] lz].
  apply binary_round_aux_sign.
Qed.

Lemma mul_not_negative a b :
  PyFloat.not_negative a -> PyFloat.not_negative b ->
  PyFloat.not_negative (PrimFloat.mul a b).
Proof.
  unfold PyFloat.not_negative. rewrite mul_spec. unfold SF64mul, SFmul.
  destruct (Prim2SF a) as [sa | sa | | sa ma ea];
    destruct (Prim2SF b) as [sb | sb | | sb mb eb];
    try (destruct sa); try (destruct sb); simpl; try tauto.
  intros _ _. apply binary_round_aux_sign.
Qed.

(** [0.0 <= f] rules out the negative numbers. *)
Lemma leb_zero_not_negative f :
  PrimFloat.leb PrimFloat.zero f = true -> PyFloat.not_negative f.
Proof.
  rewrite leb_spec. unfold PyFloat.not_negative.
  change (Prim2SF PrimFloat.zero) with (S754_zero false).
  destruct (Prim2SF f) as [s | s | | s m e]; try (destruct s); simpl; try tauto; discriminate.
Qed.

Lemma diagonal_not_negative e : PyFloat.not_negative (Extent.diagonal e).
Proof. apply sqrt_not_negative. Qed.

(** Scaling by a non-negative fraction: [int] computes the floor. *)
Lemma int_scaled_is_floor f e :
  PrimFloat.leb PrimFloat.zero f = true ->
  PyFloat.int (PrimFloat.mul f (Extent.diagonal e))
  = PyFloat.floor (PrimFloat.mul f (Extent.diagonal e)).
Proof.
  intros Hf. apply int_floor_not_negative, mul_not_negative.
  - by apply leb_zero_not_negative.
  - apply diagonal_not_negative.
Qed.

(** Below zero the two differ: [int(-0.5)] is 0, [math.floor(-0.5)] is -1. *)
Example int_truncates_toward_zero :
  PyFloat.int (-0.5)%float = Ok 0 /\ PyFloat.floor (-0.5)%float = Ok (-1).
Proof. split; reflexivity. Qed.

(** Zero times a finite float is a zero, whose [int] is 0. *)
Lemma int_zero_mul f :
  PyFloat.is_finite f = true -> PyFloat.int (PrimFloat.mul PrimFloat.zero f) = Ok 0.
Proof.
  unfold PyFloat.is_finite, PyFloat.int. rewrite mul_spec.
  change (Prim2SF PrimFloat.zero) with (S754_zero false).
  unfold SF64mul, SFmul.
  destruct (Prim2SF f) as [s | s | | s m e]; try discriminate; reflexivity.
Qed.

(** ** Mask extraction *)

Section HostFacts.

Variable host_grow : Z -> Z -> Selection -> Selection.
Variable host_feather : Z -> Selection -> Selection.

Lemma is_opaque_Forall mask : is_opaque mask = true <-> Forall (eq xff) mask.
Proof.
  unfold is_opaque. rewrite forallb_forall, Forall_forall.
  split; intros H x Hx.
  - apply list_elem_of_In in Hx. specialize (H x Hx).
    symmetry. by apply Byte.byte_dec_bl.
  - apply list_elem_of_In in Hx. specialize (H x Hx). subst x. reflexivity.
Qed.

(** The full-document test, as arithmetic on the selection's rectangle. *)
Lemma selection_is_entire_document_iff s e :
  _selection_is_entire_document s e = true <->
  sel_x s <= 0 /\ sel_y s <= 0 /\
  Extent.width e <= sel_width s + sel_x s /\
  Extent.height e <= sel_height s + sel_y s /\
  Forall (eq xff) (read_selection s (selection_bounds s)).
Proof.
  unfold _selection_is_entire_document. simpl.
  destruct (sel_x s >? 0) eqn:Hx; [split; [discriminate | lia] |].
  destruct (sel_y s >? 0) eqn:Hy; [split; [discriminate | lia] |].
  destruct (sel_width s + sel_x s <? Extent.width e) eqn:Hw; [split; [discriminate | lia] |].
  destruct (sel_height s + sel_y s <? Extent.height e) eqn:Hh; [split; [discriminate | lia] |].
  simpl. rewrite is_opaque_Forall. split; [intros H; repeat split; (lia || exact H) | tauto].
Qed.

(** What a run past the full-document check computes and leaves behind,
    given the two pixel counts [int] delivered. *)
Lemma create_mask_from_selection_run grow feather d us gp fr :
  let s0 := selections d us in
  let size_factor := Extent.diagonal (Extent.mk (sel_width s0) (sel_height s0)) in
  selection d = Some us ->
  _selection_is_entire_document s0 (extent d) = false ->
  PyFloat.int (PrimFloat.mul grow size_factor) = Ok gp ->
  PyFloat.int (PrimFloat.mul feather size_factor) = Ok fr ->
  let dup := next_selection d in
  let s1 := if gp >? 0 then host_grow gp gp s0 else s0 in
  let s2 := if fr >? 0 then host_feather fr s1 else s1 in
  let bounds := Bounds.clamp (Bounds.pad (selection_bounds s2) fr 8) (extent d) in
  let d' := snd (create_mask_from_selection host_grow host_feather grow feather d) in
  fst (create_mask_from_selection host_grow host_feather grow feather d)
    = Ok (Some (mkMask bounds (read_selection s2 bounds))) /\
  selections d' dup = s2 /\
  (forall k, k <> dup -> selections d' k = selections d k) /\
  selection d' = selection d /\
  calls d' = calls d.
Proof.
  intros s0 size_factor Hsel Hent Hgp Hfr dup s1 s2 bounds d'.
  subst d'. unfold create_mask_from_selection, bind, gets, lift, duplicate.
  rewrite Hsel. fold s0. rewrite Hent. simpl.
  rewrite fn_lookup_insert. fold s0. fold size_factor. rewrite Hgp, Hfr.
  subst bounds s2 s1. unfold when, update_selection, ret.
  destruct (gp >? 0) eqn:Hg; destruct (fr >? 0) eqn:Hf; simpl;
    rewrite ?fn_lookup_insert; fold s0; fold dup;
    (split; [reflexivity |]); (split; [reflexivity |]);
    (split; [| split; [by rewrite Hsel | reflexivity]]);
    intros k Hk; rewrite ?fn_lookup_insert_ne by congruence; reflexivity.
Qed.

Lemma create_mask_from_selection_absent grow feather d :
  selection d = None ->
  create_mask_from_selection host_grow host_feather grow feather d = (Ok None, d).
Proof.
  intros H. unfold create_mask_from_selection, bind, gets. rewrite H. reflexivity.
Qed.

Lemma create_mask_from_selection_entire grow feather d us :
  selection d = Some us ->
  _selection_is_entire_document (selections d us) (extent d) = true ->
  create_mask_from_selection host_grow host_feather grow feather d = (Ok None, d).
Proof.
  intros H He. unfold create_mask_from_selection, bind, gets. rewrite H, He. reflexivity.
Qed.

Lemma create_mask_from_selection_partial grow feather d us :
  selection d = Some us ->
  _selection_is_entire_document (selections d us) (extent d) = false ->
  fst (create_mask_from_selection host_grow host_feather grow feather d) <> Ok None.
Proof.
  intros H He.
  destruct (PyFloat.int (PrimFloat.mul grow
              (Extent.diagonal (Extent.mk (sel_width (selections d us))
                                          (sel_height (selections d us)))))) as [gp | e] eqn:Hg.
  - destruct (PyFloat.int (PrimFloat.mul feather
                (Extent.diagonal (Extent.mk (sel_width (selections d us))
                                            (sel_height (selections d us)))))) as [fr | e] eqn:Hf.
    + destruct (create_mask_from_selection_run grow feather d us gp fr H He Hg Hf) as [-> _].
      discriminate.
    + unfold create_mask_from_selection, bind, gets, lift, duplicate.
      rewrite H, He. simpl. rewrite fn_lookup_insert, Hg, Hf. simpl. discriminate.
  - unfold create_mask_from_selection, bind, gets, lift, duplicate.
    rewrite H, He. simpl. rewrite fn_lookup_insert, Hg. simpl. discriminate.
Qed.

(** C1 (amended): for every grow and feather, [create_mask_from_selection]
    returns [None] exactly when no selection exists, or the selection's
    rectangle starts at or before the origin on both axes, reaches at least
    the document's full width and height, and every sampled selection byte
    is 0xFF.  In particular a selection narrower or lower than the document,
    even if fully opaque, never yields [None]: it yields a mask whenever
    [int] of the two scaled amounts does not raise. *)
Theorem create_mask_from_selection_none_iff grow feather d :
  (fst (create_mask_from_selection host_grow host_feather grow feather d) = Ok None <->
   selection d = None \/
   exists us, selection d = Some us /\
     let s := selections d us in
     sel_x s <= 0 /\ sel_y s <= 0 /\
     doc_width d <= sel_width s + sel_x s /\
     doc_height d <= sel_height s + sel_y s /\
     Forall (eq xff) (read_selection s (selection_bounds s))) /\
  (forall us, selection d = Some us ->
     let s := selections d us in
     let size_factor := Extent.diagonal (Extent.mk (sel_width s) (sel_height s)) in
     sel_width s < doc_width d \/ sel_height s < doc_height d ->
     fst (create_mask_from_selection host_grow host_feather grow feather d) <> Ok None /\
     forall gp fr,
       PyFloat.int (PrimFloat.mul grow size_factor) = Ok gp ->
       PyFloat.int (PrimFloat.mul feather size_factor) = Ok fr ->
       exists mask,
         fst (create_mask_from_selection host_grow host_feather grow feather d) = Ok (Some mask)).
Proof.
  split.
  - destruct (selection d) as [us |] eqn:Hsel.
    + destruct (_selection_is_entire_document (selections d us) (extent d)) eqn:He.
      * rewrite (create_mask_from_selection_entire _ _ _ _ Hsel He). simpl.
        split; [intros _ | reflexivity].
        right. exists us. split; [reflexivity |].
        by apply selection_is_entire_document_iff in He.
      * split.
        -- intros H. by apply (create_mask_from_selection_partial grow feather d us) in H.
        -- intros [H | (us' & Hus & H)]; [discriminate |].
           injection Hus as <-.
           pose proof (proj2 (selection_is_entire_document_iff (selections d us) (extent d)) H).
           congruence.
    + rewrite (create_mask_from_selection_absent _ _ _ Hsel). simpl.
      split; [by left | reflexivity].
  - intros us Hsel s size_factor Hsmall.
    assert (He : _selection_is_entire_document s (extent d) = false).
    { destruct (_selection_is_entire_document s (extent d)) eqn:He; [| reflexivity].
      apply selection_is_entire_document_iff in He. simpl in He. lia. }
    split; [by apply (create_mask_from_selection_partial grow feather d us) |].
    intros gp fr Hg Hf.
    destruct (create_mask_from_selection_run grow feather d us gp fr Hsel He Hg Hf) as [-> _].
    eauto.
Qed.

(** C4: past the full-document check the method works on a duplicate (a new
    selection object; the live one, and every other, is left as it was).
    For non-negative grow and feather, with [gp] and [fr] the floors of
    grow and feather times the diagonal of the selection's extent, the
    duplicate is dilated by [gp] only when [gp > 0], then feathered by [fr]
    only when [fr > 0]; the bounds are taken from the resulting selection,
    padded by [fr] to a multiple of 8 and clamped to the document extent,
    and the mask data is read from the resulting selection over them. *)
Theorem create_mask_from_selection_steps grow feather d us gp fr :
  let s0 := selections d us in
  let size_factor := Extent.diagonal (Extent.mk (sel_width s0) (sel_height s0)) in
  selection d = Some us ->
  (us < next_selection d)%nat ->
  _selection_is_entire_document s0 (extent d) = false ->
  PrimFloat.leb PrimFloat.zero grow = true ->
  PrimFloat.leb PrimFloat.zero feather = true ->
  PyFloat.floor (PrimFloat.mul grow size_factor) = Ok gp ->
  PyFloat.floor (PrimFloat.mul feather size_factor) = Ok fr ->
  let dup := next_selection d in
  let s1 := if gp >? 0 then host_grow gp gp s0 else s0 in
  let s2 := if fr >? 0 then host_feather fr s1 else s1 in
  let bounds := Bounds.clamp (Bounds.pad (selection_bounds s2) fr 8) (extent d) in
  let d' := snd (create_mask_from_selection host_grow host_feather grow feather d) in
  fst (create_mask_from_selection host_grow host_feather grow feather d)
    = Ok (Some (mkMask bounds (read_selection s2 bounds))) /\
  dup <> us /\
  selections d' dup = s2 /\
  selections d' us = s0 /\
  (forall k, k <> dup -> selections d' k = selections d k) /\
  selection d' = Some us.
Proof.
  intros s0 size_factor Hsel Hlt He Hgrow Hfeather Hgp Hfr dup s1 s2 bounds d'.
  unfold size_factor in Hgp, Hfr.
  rewrite <- int_scaled_is_floor in Hgp by assumption.
  rewrite <- int_scaled_is_floor in Hfr by assumption.
  destruct (create_mask_from_selection_run grow feather d us gp fr Hsel He Hgp Hfr)
    as (Hres & Hdup & Hother & Hlive & _).
  assert (Hne : dup <> us) by (subst dup; lia).
  split; [exact Hres |]. split; [exact Hne |]. split; [exact Hdup |].
  split; [apply Hother; lia |]. split; [exact Hother |].
  subst d'. rewrite Hlive. exact Hsel.
Qed.

(** C5 (amended): with grow = 0 and feather = 0, on a selection that does
    not cover the whole document (and whose diagonal is a finite float), the
    method returns a mask whose bounds are the selection bounds padded by 0
    to a multiple of 8 and clamped to the document, and whose data is the
    untouched selection read over those bounds; the data is the original
    selection buffer whenever those bounds are the selection's own. *)
Theorem create_mask_from_selection_zero d us :
  let s0 := selections d us in
  selection d = Some us ->
  _selection_is_entire_document s0 (extent d) = false ->
  PyFloat.is_finite (Extent.diagonal (Extent.mk (sel_width s0) (sel_height s0))) = true ->
  let bounds := Bounds.clamp (Bounds.pad (selection_bounds s0) 0 8) (extent d) in
  fst (create_mask_from_selection host_grow host_feather PrimFloat.zero PrimFloat.zero d)
    = Ok (Some (mkMask bounds (read_selection s0 bounds))) /\
  (bounds = selection_bounds s0 ->
   fst (create_mask_from_selection host_grow host_feather PrimFloat.zero PrimFloat.zero d)
     = Ok (Some (mkMask (selection_bounds s0) (read_selection s0 (selection_bounds s0))))).
Proof.
  intros s0 Hsel He Hfin bounds.
  pose proof (int_zero_mul _ Hfin) as Hz.
  destruct (create_mask_from_selection_run PrimFloat.zero PrimFloat.zero d us 0 0 Hsel He Hz Hz)
    as [Hres _].
  simpl in Hres. fold s0 in Hres. fold bounds in Hres.
  split; [exact Hres |]. intros Hb. rewrite Hres, Hb. reflexivity.
Qed.

End HostFacts.

Example create_mask_from_selection_full_document :
  fst (create_mask_from_selection sample_grow sample_feather 0.125 0.0625 full_doc) = Ok None.
Proof. vm_compute. reflexivity. Qed.

Example create_mask_from_selection_small_selection :
  fst (create_mask_from_selection sample_grow sample_feather 0 0 small_selection_doc)
  = Ok (Some (mkMask (Bounds.mk 10 10 8 8)
                (read_selection (rect_selection 10 10 5 5) (Bounds.mk 10 10 8 8)))).
Proof. vm_compute. reflexivity. Qed.

(** The claim as C1 words it fails: a fully opaque selection that starts
    left of the origin and reaches the document's right and bottom edges
    yields [None], although its rectangle does not start at the origin. *)
Lemma create_mask_from_selection_overhang :
  fst (create_mask_from_selection sample_grow sample_feather 0 0 overhang_doc) = Ok None /\
  ~ (selection overhang_doc = None \/
     exists us, selection overhang_doc = Some us /\
       sel_x (selections overhang_doc us) = 0 /\
       sel_y (selections overhang_doc us) = 0 /\
       sel_width (selections overhang_doc us) = doc_width overhang_doc /\
       sel_height (selections overhang_doc us) = doc_height overhang_doc /\
       Forall (eq xff)
         (read_selection (selections overhang_doc us)
            (selection_bounds (selections overhang_doc us)))).
Proof.
  split; [vm_compute; reflexivity |].
  intros [H | (us & _ & Hx & _)]; [discriminate H | discriminate Hx].
Qed.

Lemma create_mask_from_selection_none_iff_witness :
  fst (create_mask_from_selection sample_grow sample_feather 0 0 overhang_doc) = Ok None /\
  fst (create_mask_from_selection sample_grow sample_feather 0 0 small_selection_doc) <> Ok None.
Proof.
  split.
  - apply (proj1 (create_mask_from_selection_none_iff sample_grow sample_feather 0 0 overhang_doc)).
    right. exists 0%nat. split; [reflexivity |].
    cbv zeta. repeat split; try (vm_compute; discriminate).
    vm_compute. repeat constructor.
  - apply (proj2 (create_mask_from_selection_none_iff sample_grow sample_feather 0 0
                    small_selection_doc) 0%nat eq_refl).
    left. vm_compute. reflexivity.
Defined.

Lemma create_mask_from_selection_steps_witness :
  fst (create_mask_from_selection sample_grow sample_feather 0.125 0.0625 steps_doc)
  = Ok (Some (mkMask (Bounds.mk 0 0 54 62)
                (read_selection (sample_feather 3 (sample_grow 6 6 (rect_selection 10 10 30 40)))
                   (Bounds.mk 0 0 54 62)))) /\
  selections (snd (create_mask_from_selection sample_grow sample_feather 0.125 0.0625 steps_doc))
    0%nat = rect_selection 10 10 30 40.
Proof.
  assert (H0 : selection steps_doc = Some 0%nat) by reflexivity.
  assert (H1 : (0 < next_selection steps_doc)%nat) by (simpl; lia).
  assert (H2 : _selection_is_entire_document (selections steps_doc 0%nat) (extent steps_doc)
               = false) by (vm_compute; reflexivity).
  assert (H3 : PrimFloat.leb PrimFloat.zero 0.125 = true) by (vm_compute; reflexivity).
  assert (H4 : PrimFloat.leb PrimFloat.zero 0.0625 = true) by (vm_compute; reflexivity).
  assert (H5 : PyFloat.floor (PrimFloat.mul 0.125
                 (Extent.diagonal (Extent.mk (sel_width (selections steps_doc 0%nat))
                                             (sel_height (selections steps_doc 0%nat)))))
               = Ok 6) by (vm_compute; reflexivity).
  assert (H6 : PyFloat.floor (PrimFloat.mul 0.0625
                 (Extent.diagonal (Extent.mk (sel_width (selections steps_doc 0%nat))
                                             (sel_height (selections steps_doc 0%nat)))))
               = Ok 3) by (vm_compute; reflexivity).
  destruct (create_mask_from_selection_steps sample_grow sample_feather 0.125 0.0625 steps_doc
              0%nat 6 3 H0 H1 H2 H3 H4 H5 H6) as (Hres & _ & _ & Hlive & _).
  split; [exact Hres | exact Hlive].
Defined.

(** The claim as C5 words it fails: with grow = 0 and feather = 0 a 5x5
    selection inside a 100x100 document yields a mask over the padded 8x8
    bounds, whose 64 bytes are not the selection's own 25-byte buffer. *)
Lemma create_mask_from_selection_zero_not_original :
  _selection_is_entire_document (selections small_selection_doc 0%nat)
    (extent small_selection_doc) = false /\
  exists mask,
    fst (create_mask_from_selection sample_grow sample_feather 0 0 small_selection_doc)
      = Ok (Some mask) /\
    mask_bounds mask = Bounds.mk 10 10 8 8 /\
    length (mask_data mask) = 64%nat /\
    length (read_selection (selections small_selection_doc 0%nat)
              (selection_bounds (selections small_selection_doc 0%nat))) = 25%nat /\
    mask_data mask <> read_selection (selections small_selection_doc 0%nat)
                        (selection_bounds (selections small_selection_doc 0%nat)).
Proof.
  split; [vm_compute; reflexivity |].
  eexists. split; [vm_compute; reflexivity |].
  split; [reflexivity |]. split; [vm_compute; reflexivity |]. split; [vm_compute; reflexivity |].
  intros H. apply (f_equal length) in H. vm_compute in H. discriminate H.
Qed.

Lemma create_mask_from_selection_zero_witness :
  fst (create_mask_from_selection sample_grow sample_feather 0 0 small_selection_doc)
  = Ok (Some (mkMask (Bounds.mk 10 10 8 8)
                (read_selection (rect_selection 10 10 5 5) (Bounds.mk 10 10 8 8)))).
Proof.
  assert (H0 : selection small_selection_doc = Some 0%nat) by reflexivity.
  assert (H1 : _selection_is_entire_document (selections small_selection_doc 0%nat)
                 (extent small_selection_doc) = false) by (vm_compute; reflexivity).
  assert (H2 : PyFloat.is_finite
                 (Extent.diagonal
                    (Extent.mk (sel_width (selections small_selection_doc 0%nat))
                               (sel_height (selections small_selection_doc 0%nat)))) = true)
    by (vm_compute; reflexivity).
  exact (proj1 (create_mask_from_selection_zero sample_grow sample_feather small_selection_doc
                  0%nat H0 H1 H2)).
Defined.

(** ** Reading the composited image without one layer *)

(** Expose the state transformer behind a method built from the monad's
    operations and the host calls. *)
Ltac monad_unfold :=
  cbv beta iota delta
    [bind ret raise gets lift when log setVisible refreshProjection doc_pixelData
     setPixelData createNode duplicate update_selection addChildNode].

(** X18: when the host read raises while a visible layer is excluded,
    [get_image] raises [HostError] and the layer is left hidden: the hide,
    one recomposite and the read are the only host calls issued. *)
Lemma get_image_hides_and_raises bounds layer d :
  let b := default (Bounds.mk 0 0 (doc_width d) (doc_height d)) bounds in
  node_visible (nodes d layer) = true ->
  pixelData d b = None ->
  let d' := snd (get_image bounds (Some layer) d) in
  fst (get_image bounds (Some layer) d) = Raise HostError /\
  node_visible (nodes d' layer) = false /\
  calls d' = calls d ++ [SetVisible layer false; RefreshProjection; PixelData b].
Proof.
  intros b Hv Hr d'. subst d' b.
  unfold get_image. monad_unfold.
  rewrite Hv. destruct bounds as [b |]; simpl in *; rewrite Hr; simpl;
    rewrite fn_lookup_insert, <- !app_assoc; auto.
Qed.

(** C2 (amended): called with an exclude_layer, [get_image] hides the layer
    and forces a recomposite before the read only when the layer is
    visible; when the read succeeds it then makes the layer visible again
    and forces a second recomposite.  A layer that is already hidden is
    left alone and only the read is issued.  On every successful return
    the visibility of every layer is what it was before the call. *)
Theorem get_image_restores_on_success bounds layer d data :
  let b := default (Bounds.mk 0 0 (doc_width d) (doc_height d)) bounds in
  pixelData d b = Some data ->
  let d' := snd (get_image bounds (Some layer) d) in
  fst (get_image bounds (Some layer) d) = Ok (QImage data (Bounds.extent b)) /\
  (forall k, node_visible (nodes d' k) = node_visible (nodes d k)) /\
  calls d' = calls d ++
    (if node_visible (nodes d layer)
     then [SetVisible layer false; RefreshProjection; PixelData b;
           SetVisible layer true; RefreshProjection]
     else [PixelData b]).
Proof.
  intros b Hr d'. subst d' b.
  unfold get_image. monad_unfold.
  destruct (node_visible (nodes d layer)) eqn:Hv;
    destruct bounds as [b |]; simpl in *; rewrite Hr; simpl;
    (split; [reflexivity |]); (split; [| rewrite <- ?app_assoc; reflexivity]);
    intros k; try reflexivity;
    (destruct (decide (k = layer)) as [-> | Hk];
     [rewrite fn_lookup_insert; simpl; congruence
     | rewrite !fn_lookup_insert_ne by congruence; reflexivity]).
Qed.

Example get_image_hidden_layer :
  calls (snd (get_image None (Some 0%nat) hidden_layer_doc))
  = [PixelData (Bounds.mk 0 0 100 100)].
Proof. reflexivity. Qed.

(** The claim as C2 words it fails: when the read raises after a visible
    layer was hidden, the call ends with the layer still hidden and a single
    recomposite issued. *)
Lemma get_image_read_failure_leaves_layer_hidden :
  fst (get_image None (Some 0%nat) failing_read_doc) = Raise HostError /\
  node_visible (nodes failing_read_doc 0%nat) = true /\
  node_visible (nodes (snd (get_image None (Some 0%nat) failing_read_doc)) 0%nat) = false /\
  calls (snd (get_image None (Some 0%nat) failing_read_doc))
  = [SetVisible 0%nat false; RefreshProjection; PixelData (Bounds.mk 0 0 100 100)].
Proof. repeat split. Qed.

Lemma get_image_restores_on_success_witness :
  fst (get_image (Some (Bounds.mk 0 0 2 2)) (Some 0%nat) readable_doc)
    = Ok (mkImage (Extent.mk 2 2) (replicate 16 xff)) /\
  node_visible (nodes (snd (get_image (Some (Bounds.mk 0 0 2 2)) (Some 0%nat) readable_doc))
                  0%nat) = true /\
  calls (snd (get_image (Some (Bounds.mk 0 0 2 2)) (Some 0%nat) readable_doc))
  = [SetVisible 0%nat false; RefreshProjection; PixelData (Bounds.mk 0 0 2 2);
     SetVisible 0%nat true; RefreshProjection].
Proof.
  destruct (get_image_restores_on_success (Some (Bounds.mk 0 0 2 2)) 0%nat readable_doc
              (replicate 16 xff) eq_refl)
    as (Hres & Hvis & Hcalls).
  split; [exact Hres |]. split; [exact (Hvis 0%nat) | exact Hcalls].
Defined.

(** ** Overwriting a layer's content *)

(** C3: when the new bounds differ from the layer's current bounds,
    [set_layer_content] first writes a blank (all-zero) buffer over the
    layer's entire prior bounds and then writes the new data; when they are
    equal there is no blank-fill and the single pixel write is the new data
    over the new bounds. *)
Theorem set_layer_content_writes layer img bounds d :
  let layer_bounds := Bounds.from_qrect (node_bounds (nodes d layer)) in
  let blank :=
    replicate (Z.to_nat (Bounds.width layer_bounds * Bounds.height layer_bounds * 4)) x00 in
  let d' := snd (set_layer_content layer img bounds d) in
  (layer_bounds <> bounds ->
   calls d' = calls d ++ [SetPixelData layer blank layer_bounds;
                          SetPixelData layer (img_data img) bounds;
                          SetVisible layer true; RefreshProjection]) /\
  (layer_bounds = bounds ->
   calls d' = calls d ++ [SetPixelData layer (img_data img) bounds;
                          SetVisible layer true; RefreshProjection]).
Proof.
  intros layer_bounds blank d'. subst d' blank.
  unfold set_layer_content. monad_unfold.
  fold layer_bounds.
  destruct (decide (layer_bounds = bounds)) as [He | Hne].
  - rewrite (bool_decide_eq_true_2 _ He). simpl. rewrite <- !app_assoc.
    split; [intros H; by destruct H | reflexivity].
  - rewrite (bool_decide_eq_false_2 _ Hne). simpl. rewrite <- !app_assoc.
    split; [reflexivity | intros H; by destruct Hne].
Qed.

Lemma set_layer_content_writes_witness :
  calls (snd (set_layer_content 0%nat sample_image (Bounds.mk 1 1 1 1) (sample_doc "RGBA" "U8")))
  = [SetPixelData 0%nat (replicate 64 x00) (Bounds.mk 0 0 4 4);
     SetPixelData 0%nat [xff; xff; xff; xff] (Bounds.mk 1 1 1 1);
     SetVisible 0%nat true; RefreshProjection] /\
  calls (snd (set_layer_content 0%nat sample_image (Bounds.mk 0 0 4 4) (sample_doc "RGBA" "U8")))
  = [SetPixelData 0%nat [xff; xff; xff; xff] (Bounds.mk 0 0 4 4);
     SetVisible 0%nat true; RefreshProjection].
Proof.
  split.
  - apply (proj1 (set_layer_content_writes 0%nat sample_image (Bounds.mk 1 1 1 1)
                    (sample_doc "RGBA" "U8"))).
    discriminate.
  - apply (proj2 (set_layer_content_writes 0%nat sample_image (Bounds.mk 0 0 4 4)
                    (sample_doc "RGBA" "U8"))).
    reflexivity.
Defined.

(** C10: every call to [set_layer_content] returns the layer, leaves it
    visible, and ends by setting it visible and forcing a recomposite,
    whatever the bounds and whether or not the layer was hidden before. *)
Theorem set_layer_content_shows_layer layer img bounds d :
  let d' := snd (set_layer_content layer img bounds d) in
  fst (set_layer_content layer img bounds d) = Ok layer /\
  node_visible (nodes d' layer) = true /\
  exists writes, calls d' = calls d ++ writes ++ [SetVisible layer true; RefreshProjection].
Proof.
  intros d'. subst d'.
  unfold set_layer_content. monad_unfold.
  destruct (negb _); simpl; rewrite fn_lookup_insert; (split; [reflexivity |]);
    (split; [reflexivity |]); rewrite <- !app_assoc.
  - by eexists [_; _].
  - by eexists [_].
Qed.

Example set_layer_content_after_hide_layer :
  let d := snd (hide_layer 0%nat (sample_doc "RGBA" "U8")) in
  node_visible (nodes d 0%nat) = false /\
  node_visible (nodes (snd (set_layer_content 0%nat sample_image (Bounds.mk 0 0 4 4) d)) 0%nat)
  = true.
Proof. split; reflexivity. Qed.

(** ** Inserting a layer next to a reference layer *)

Lemma index_app_first (x : nat) (l1 l2 : list nat) :
  x ∉ l1 -> index x (l1 ++ x :: l2) = Some (length l1).
Proof.
  induction l1 as [| y l1 IH]; simpl; intros Hx.
  - by rewrite decide_True.
  - rewrite decide_False by (intros ->; apply Hx; left).
    rewrite IH by (intros H; apply Hx; by right). reflexivity.
Qed.

Lemma index_None (x : nat) (l : list nat) : x ∉ l -> index x l = None.
Proof.
  induction l as [| y l IH]; simpl; intros Hx; [reflexivity |].
  rewrite decide_False by (intros ->; apply Hx; left).
  rewrite IH by (intros H; apply Hx; by right). reflexivity.
Qed.

Lemma lookup_pred_length_last (l1 l2 : list nat) :
  (l1 ++ l2) !! (length l1 - 1)%nat = if (1 <=? length l1)%nat then last l1 else l2 !! 0%nat.
Proof.
  destruct l1 as [| a l1] using rev_ind; [reflexivity |].
  rewrite length_app, last_snoc. simpl length.
  replace (1 <=? length l1 + 1)%nat with true by (symmetry; apply Nat.leb_le; lia).
  replace (length l1 + 1 - 1)%nat with (length l1) by lia.
  rewrite <- app_assoc. simpl. by rewrite list_lookup_middle.
Qed.

(** The anchor [_find_layer_above] picks: the sibling just before the
    reference layer, or none when the reference layer comes first. *)
Lemma find_layer_above_sibling d L l1 l2 :
  childNodes d = l1 ++ L :: l2 -> L ∉ l1 ->
  _find_layer_above (Some L) d = (Ok (last l1), d).
Proof.
  intros Hc HL. unfold _find_layer_above. monad_unfold.
  rewrite Hc, index_app_first by assumption.
  rewrite lookup_pred_length_last.
  destruct (1 <=? length l1)%nat eqn:Hlen; [destruct (last l1) eqn:Hlast; [reflexivity |] |].
  - apply last_None in Hlast. subst l1. discriminate Hlen.
  - apply Nat.leb_gt in Hlen. destruct l1; [reflexivity | simpl in Hlen; lia].
Qed.

(** A reference layer that is not a child of the root makes the lookup
    raise. *)
Lemma find_layer_above_not_a_child d L :
  L ∉ childNodes d -> _find_layer_above (Some L) d = (Raise ValueError, d).
Proof.
  intros HL. unfold _find_layer_above. monad_unfold. by rewrite index_None.
Qed.

Section InsertFacts.

Variable svg_shapes : string -> list Shape.
Variable host_addChildNode : QUuid -> option QUuid -> list QUuid -> list QUuid.


End InsertFacts.



(** ** The pose synchronization loop *)

Section PoseFacts.

Variable Pose : Type.
Variable Pose_new : Extent.t -> Pose.
Variable Pose_update : Pose -> list Shape -> float -> Pose * option string.
Variable svg_shapes : string -> list Shape.

Local Abbreviation tick := (update Pose_new Pose_update svg_shapes).
Local Abbreviation ticks := (run Pose_new Pose_update svg_shapes).

(** C7: a tick with no active document, with no active layer, or with an
    active layer that is not a vector layer returns normally and changes
    nothing: the pose-model map and the pose objects are as before, and the
    document, its call log included, is untouched (no SVG write). *)
Theorem update_nothing_to_do (active : option Doc) (self : PoseLayers Pose) :
  (active = None \/
   exists doc, active = Some doc /\
     (activeNode doc = None \/
      exists layer, activeNode doc = Some layer /\
                    node_type (nodes doc layer) <> "vectorlayer")) ->
  tick active self = (self, active).
Proof.
  intros [-> | (doc & -> & [H | (layer & H & Ht)])]; simpl; [reflexivity | |];
    rewrite H; [reflexivity |].
  apply String.eqb_neq in Ht. by rewrite Ht.
Qed.

Lemma setdefault_subseteq key default (m : gmap nat nat) :
  m ⊆ (setdefault key default m).1.
Proof.
  unfold setdefault. destruct (m !! key) eqn:H; simpl; [done |].
  by apply insert_subseteq.
Qed.

Lemma update_layers active self :
  _layers (tick active self).1
  = match active with
    | Some doc =>
        match activeNode doc with
        | Some layer =>
            if String.eqb (node_type (nodes doc layer)) "vectorlayer"
            then (setdefault layer (next_pose self) (_layers self)).1
            else _layers self
        | None => _layers self
        end
    | None => _layers self
    end.
Proof.
  destruct active as [doc |]; [| reflexivity]. simpl.
  destruct (activeNode doc) as [layer |]; [| reflexivity].
  destruct (String.eqb _ _); [| reflexivity]. simpl.
  destruct (setdefault _ _ _) as [layers pose]. destruct (Pose_update _ _ _) as [model changes].
  by destruct (truthy changes).
Qed.

Lemma update_layers_subseteq active self : _layers self ⊆ _layers (tick active self).1.
Proof.
  rewrite update_layers.
  destruct active as [doc |]; [| done].
  destruct (activeNode doc) as [layer |]; [| done].
  destruct (String.eqb _ _); [| done]. apply setdefault_subseteq.
Qed.

(** C9: the pose-model map only grows.  Over any sequence of ticks every
    entry present at some point is still there afterwards, bound to the
    same pose object.  An entry appears only in a tick that observes its id
    as the active vector layer while the id has no entry yet; it is then
    bound to the object created in that tick from the active document's
    extent (and reconciled once).  Such a tick always leaves the id with an
    entry. *)
Theorem layers_only_grow :
  (forall (env : list (option Doc)) (self : PoseLayers Pose),
     _layers self ⊆ _layers (ticks env self)) /\
  (forall (active : option Doc) (self : PoseLayers Pose) (key : QUuid) (pose : nat),
     _layers self !! key = None ->
     _layers (tick active self).1 !! key = Some pose ->
     exists doc,
       active = Some doc /\ activeNode doc = Some key /\
       node_type (nodes doc key) = "vectorlayer" /\
       pose = next_pose self /\
       poses (tick active self).1 pose
       = (Pose_update (Pose_new (extent doc)) (node_shapes (nodes doc key))
            (doc_resolution doc)).1) /\
  (forall (active : option Doc) (self : PoseLayers Pose) (key : QUuid),
     observes active key -> is_Some (_layers (tick active self).1 !! key)).
Proof.
  split; [| split].
  - intros env. induction env as [| active env IH]; intros self; simpl; [done |].
    etrans; [apply update_layers_subseteq | apply IH].
  - intros active self key pose Hnone Hsome.
    destruct active as [doc |]; [| simpl in Hsome; congruence].
    simpl in *. destruct (activeNode doc) as [layer |] eqn:Hact; [| simpl in Hsome; congruence].
    destruct (String.eqb_spec (node_type (nodes doc layer)) "vectorlayer") as [Ht | Ht];
      [| simpl in Hsome; congruence].
    simpl in *. unfold setdefault in *.
    destruct (_layers self !! layer) as [old |] eqn:Hold.
    + destruct (Pose_update _ _ _) as [model changes].
      destruct (truthy changes); simpl in Hsome; congruence.
    + destruct (decide (layer = key)) as [-> | Hne].
      * exists doc.
        destruct (Pose_update (<[next_pose self:=Pose_new (extent doc)]> (poses self)
                                 (next_pose self)) _ _) as [model changes] eqn:Hup.
        rewrite fn_lookup_insert in Hup.
        assert (pose = next_pose self) as ->.
        { destruct (truthy changes); simpl in Hsome;
            rewrite lookup_insert_eq in Hsome; congruence. }
        repeat split; try done.
        rewrite Hup. destruct (truthy changes); simpl; by rewrite fn_lookup_insert.
      * destruct (Pose_update _ _ _) as [model changes].
        destruct (truthy changes); simpl in Hsome;
          rewrite lookup_insert_ne in Hsome by done; congruence.
  - intros active self key (doc & -> & Hact & Ht).
    rewrite update_layers, Hact, Ht. simpl.
    unfold setdefault. destruct (_layers self !! key) eqn:H; simpl.
    + by rewrite H.
    + by rewrite lookup_insert_eq.
Qed.

End PoseFacts.

Lemma update_nothing_to_do_witness :
  update sample_pose_new sample_pose_update sample_svg_shapes None no_poses = (no_poses, None) /\
  update sample_pose_new sample_pose_update sample_svg_shapes (Some paint_doc) no_poses
  = (no_poses, Some paint_doc).
Proof.
  split; apply update_nothing_to_do.
  - by left.
  - right. exists paint_doc. split; [reflexivity |].
    right. exists 0%nat. split; [reflexivity | discriminate].
Defined.

Example update_first_observation :
  let self := (update sample_pose_new sample_pose_update sample_svg_shapes (Some pose_doc)
                 no_poses).1 in
  _layers self !! 3%nat = Some 0%nat /\
  poses self 0%nat = ["<circle/>"] /\
  calls <$> (update sample_pose_new sample_pose_update sample_svg_shapes (Some pose_doc)
               no_poses).2 = Some [AddShapesFromSvg 3%nat "<g/>"].
Proof. repeat split. Qed.

Example update_unchanged_shapes :
  let self := (update sample_pose_new sample_pose_update sample_svg_shapes (Some pose_doc)
                 no_poses).1 in
  (update sample_pose_new sample_pose_update sample_svg_shapes (Some pose_doc) self).2
  = Some pose_doc.
Proof. reflexivity. Qed.

Lemma layers_only_grow_witness :
  let self := (update sample_pose_new sample_pose_update sample_svg_shapes (Some pose_doc)
                 no_poses).1 in
  _layers (run sample_pose_new sample_pose_update sample_svg_shapes
             [None; Some paint_doc; Some pose_doc; None] self) !! 3%nat = Some 0%nat.
Proof.
  intros self.
  pose proof (proj1 (layers_only_grow (list Shape) sample_pose_new sample_pose_update
                       sample_svg_shapes)
                [None; Some paint_doc; Some pose_doc; None] self) as Hsub.
  apply (proj1 (map_subseteq_spec _ _) Hsub). reflexivity.
Defined.

(** * Further properties of the facade *)

(** ** The layer tree *)

Lemma tree_induction (P : Tree.t -> Prop) :
  (forall u ty cs, List.Forall P cs -> P (Tree.mk u ty cs)) -> forall t, P t.
Proof.
  intros H. fix IH 1. intros [u ty cs]. apply H.
  induction cs as [| c cs IHcs]; constructor; [apply IH | exact IHcs].
Qed.

(** What the loop over the children yields, child by child. *)
Lemma traverse_children f u ty cs :
  _traverse_layers f (Tree.mk u ty cs)
  = flat_map (fun c => _traverse_layers f c ++ (if passes f c then [c] else [])) cs.
Proof.
  simpl. induction cs as [| c cs IH]; [reflexivity |].
  simpl. rewrite IH, <- app_assoc. reflexivity.
Qed.

Lemma traverse_child_split f t c :
  In c (Tree.childNodes t) ->
  exists pre post,
    _traverse_layers f t
    = pre ++ _traverse_layers f c ++ (if passes f c then [c] else []) ++ post.
Proof.
  destruct t as [u ty cs]. rewrite traverse_children. simpl.
  intros Hc. apply in_split in Hc as (l1 & l2 & ->).
  rewrite flat_map_app. simpl. rewrite <- app_assoc. eauto.
Qed.

Lemma traverse_In f t x :
  In x (_traverse_layers f t) <-> descendant x t /\ passes f x = true.
Proof.
  revert x. induction t as [u ty cs IH] using tree_induction. intros x.
  rewrite traverse_children, in_flat_map. split.
  - intros (c & Hc & Hx). rewrite List.Forall_forall in IH.
    apply in_app_or in Hx as [Hx | Hx].
    + apply (IH c Hc) in Hx as [Hd Hp]. split; [| exact Hp].
      by apply (descendant_below x c).
    + destruct (passes f c) eqn:Hp; [| destruct Hx].
      destruct Hx as [-> | []]. split; [| exact Hp]. by apply descendant_child.
  - intros [Hd Hp]. rewrite List.Forall_forall in IH.
    inversion Hd as [t' Hc | c t' Hc Hdc]; subst; simpl in Hc.
    + exists x. split; [exact Hc |]. apply in_or_app. right. rewrite Hp. by left.
    + exists c. split; [exact Hc |]. apply in_or_app. left. by apply (IH c Hc).
Qed.

Lemma passes_allowed x :
  passes (Some allowed_layer_types) x = true <-> In (Tree.type x) allowed_layer_types.
Proof.
  unfold passes, allowed_layer_types. rewrite existsb_exists. split.
  - intros (ty & Hin & Heq). apply String.eqb_eq in Heq. by rewrite Heq.
  - intros Hin. exists (Tree.type x). split; [exact Hin | apply String.eqb_refl].
Qed.

(** X1: [image_layers] lists exactly the nodes strictly below the root whose
    type is "paintlayer", "vectorlayer" or "grouplayer".  The test is made
    node by node: a recognised layer is listed also when it sits below a
    node of another type. *)
Theorem image_layers_membership (root x : Tree.t) :
  In x (image_layers root) <->
  descendant x root /\ In (Tree.type x) allowed_layer_types.
Proof. unfold image_layers. rewrite traverse_In, passes_allowed. reflexivity. Qed.

Example image_layers_sample :
  map Tree.uniqueId (image_layers sample_tree) = [1; 3; 2; 6]%nat.
Proof. reflexivity. Qed.

(** X2: the traversal is post-order.  Whenever a node [b] is yielded and
    [a] lies strictly below [b] and passes the filter, [a] is yielded
    earlier than [b]. *)
Theorem traverse_layers_post_order f (t a b : Tree.t) :
  In b (_traverse_layers f t) ->
  descendant a b ->
  passes f a = true ->
  exists l1 l2 l3, _traverse_layers f t = l1 ++ a :: l2 ++ b :: l3.
Proof.
  intros Hb Hab Hpa. revert Hb.
  induction t as [u ty cs IH] using tree_induction. intros Hb.
  rewrite List.Forall_forall in IH.
  pose proof Hb as Hb'. rewrite traverse_children, in_flat_map in Hb'.
  destruct Hb' as (c & Hc & Hin).
  destruct (traverse_child_split f (Tree.mk u ty cs) c Hc) as (pre & post & Heq).
  apply in_app_or in Hin as [Hin | Hin].
  - destruct (IH c Hc Hin) as (l1 & l2 & l3 & Hsplit).
    rewrite Heq, Hsplit. exists (pre ++ l1), l2, (l3 ++ (if passes f c then [c] else []) ++ post).
    rewrite <- !app_assoc. simpl. rewrite <- ?app_assoc. reflexivity.
  - destruct (passes f c) eqn:Hpc; [| destruct Hin].
    destruct Hin as [-> | []].
    assert (Ha : In a (_traverse_layers f b)) by (apply traverse_In; by split).
    apply in_split in Ha as (m1 & m2 & Hm).
    rewrite Heq, Hm. exists (pre ++ m1), m2, post.
    rewrite <- !app_assoc. simpl. rewrite <- ?app_assoc. reflexivity.
Qed.

Lemma traverse_layers_post_order_witness :
  exists l1 l2 l3,
    image_layers sample_tree
    = l1 ++ Tree.mk 3 "vectorlayer" [] :: l2
         ++ Tree.mk 2 "grouplayer" [Tree.mk 3 "vectorlayer" []; Tree.mk 4 "filtermask" []] :: l3.
Proof.
  apply (traverse_layers_post_order (Some allowed_layer_types) sample_tree).
  - simpl. right. right. left. reflexivity.
  - apply descendant_child. simpl. left. reflexivity.
  - reflexivity.
Defined.

(** X3: [find_layer] answers a layer exactly when some node strictly below
    the root has the id and a recognised type; the layer it answers has the
    id, a recognised type and lies below the root.  It answers [None] only
    when no such node exists. *)
Theorem find_layer_spec (id : QUuid) (root : Tree.t) :
  (forall layer, find_layer id root = Some layer ->
     Tree.uniqueId layer = id /\ descendant layer root /\
     In (Tree.type layer) allowed_layer_types) /\
  (find_layer id root = None <->
   forall x, descendant x root -> In (Tree.type x) allowed_layer_types ->
             Tree.uniqueId x <> id).
Proof.
  unfold find_layer. split.
  - intros layer H. apply find_some in H as [Hin Heq].
    apply Nat.eqb_eq in Heq. unfold image_layers in Hin.
    rewrite traverse_In, passes_allowed in Hin. tauto.
  - split.
    + intros H x Hd Hty Hid.
      assert (Hin : In x (image_layers root))
        by (unfold image_layers; rewrite traverse_In, passes_allowed; tauto).
      pose proof (find_none _ _ H x Hin) as Hne. simpl in Hne.
      apply Nat.eqb_neq in Hne. contradiction.
    + intros H. destruct (List.find _ _) as [y |] eqn:Hf; [| reflexivity].
      apply find_some in Hf as [Hin Heq]. apply Nat.eqb_eq in Heq.
      unfold image_layers in Hin. rewrite traverse_In, passes_allowed in Hin.
      destruct Hin as [Hd Hty]. by destruct (H y Hd Hty).
Qed.

Example find_layer_below_unrecognised_node :
  Tree.uniqueId <$> find_layer 6 sample_tree = Some 6%nat /\
  find_layer 4 sample_tree = None /\ find_layer 0 sample_tree = None.
Proof. repeat split. Qed.

(** X4: an empty filter list filters nothing: like no filter at all, it
    yields every node strictly below the starting node. *)
Theorem traverse_layers_empty_filter (t x : Tree.t) :
  _traverse_layers (Some []) t = _traverse_layers None t /\
  (In x (_traverse_layers None t) <-> descendant x t).
Proof.
  split.
  - induction t as [u ty cs IH] using tree_induction.
    rewrite !traverse_children.
    induction IH as [| c cs Hc _ IHcs]; cbn [flat_map]; [reflexivity |].
    rewrite Hc, IHcs. reflexivity.
  - rewrite traverse_In. simpl. tauto.
Qed.

(** ** Reading one layer *)

(** X5: [get_layer_image] fails its assertion exactly when the host hands
    out no buffer or one with fewer than four bytes per pixel of the
    requested bounds (the layer's own bounds when none are given).
    Otherwise it returns an image with the extent of those bounds whose
    data is the first [width * height * 4] bytes of the host's buffer, and
    for bounds of non-negative area exactly that many bytes. *)
Theorem get_layer_image_checked projection layer bounds d :
  let b := default (Bounds.from_qrect (node_bounds (nodes d layer))) bounds in
  let size := Bounds.width b * Bounds.height b * 4 in
  (get_layer_image projection layer bounds d = AssertionError <->
   projection d layer b = None \/
   exists data, projection d layer b = Some data /\ Z.of_nat (length data) < size) /\
  (forall img, get_layer_image projection layer bounds d = Returns img ->
     exists data, projection d layer b = Some data /\
       img_extent img = Bounds.extent b /\
       img_data img = take (Z.to_nat size) data /\
       (0 <= size -> Z.of_nat (length (img_data img)) = size)).
Proof.
  intros b size. unfold get_layer_image.
  replace (match bounds with Some b0 => b0 | None => _ end) with b
    by (subst b; by destruct bounds).
  unfold Extent.pixel_count. simpl. fold size.
  destruct (projection d layer b) as [data |]; [| split; [tauto | discriminate]].
  destruct (size <=? Z.of_nat (length data)) eqn:Hlen.
  - apply Z.leb_le in Hlen. split.
    + split; [discriminate |]. intros [H | (data' & [= <-] & H)]; [discriminate | lia].
    + intros img [= <-]. exists data. simpl. fold size.
      repeat split. intros Hsize. rewrite length_take. lia.
  - apply Z.leb_gt in Hlen. split; [| discriminate].
    split; [| reflexivity]. intros _. right. by exists data.
Qed.

Example get_layer_image_short_buffer :
  get_layer_image sample_projection 0%nat None (sample_doc "RGBA" "U8") = AssertionError /\
  get_layer_image sample_projection 0%nat (Some (Bounds.mk 0 0 2 2)) (sample_doc "RGBA" "U8")
  = Returns (mkImage (Extent.mk 2 2) (replicate 16 xff)) /\
  get_layer_image sample_projection 0%nat (Some (Bounds.mk 0 0 1 1)) (sample_doc "RGBA" "U8")
  = Returns (mkImage (Extent.mk 1 1) (replicate 4 xff)).
Proof. repeat split. Qed.

(** ** Hiding a layer, and what follows it *)

(** X6: after [hide_layer], reading the composited image without that layer
    toggles nothing: whether or not the read succeeds, the only further
    host call is the read and the layer stays hidden. *)
Theorem get_image_after_hide_layer bounds layer d :
  let b := default (Bounds.mk 0 0 (doc_width d) (doc_height d)) bounds in
  let hidden := snd (hide_layer layer d) in
  let d' := snd (get_image bounds (Some layer) hidden) in
  node_visible (nodes d' layer) = false /\
  calls d' = calls d ++ [SetVisible layer false; RefreshProjection; PixelData b].
Proof.
  intros b hidden d'. subst d' hidden b.
  unfold get_image, hide_layer. monad_unfold. simpl.
  rewrite fn_lookup_insert. simpl.
  destruct bounds as [b |]; simpl;
    (destruct (pixelData d _) as [data |]; simpl;
     rewrite fn_lookup_insert, <- !app_assoc; split; reflexivity).
Qed.

(** X7: [set_layer_content] undoes [hide_layer].  Apart from the call log,
    writing content to a layer that was just hidden leaves every node, the
    sibling list and the result exactly as writing it without the hide. *)
Theorem set_layer_content_undoes_hide_layer layer img bounds d :
  let direct := set_layer_content layer img bounds d in
  let after_hide := set_layer_content layer img bounds (snd (hide_layer layer d)) in
  fst after_hide = fst direct /\
  (forall k, nodes (snd after_hide) k = nodes (snd direct) k) /\
  childNodes (snd after_hide) = childNodes (snd direct) /\
  calls (snd after_hide)
  = calls d ++ [SetVisible layer false; RefreshProjection]
            ++ drop (length (calls d)) (calls (snd direct)).
Proof.
  intros direct after_hide. subst direct after_hide.
  unfold set_layer_content, hide_layer. monad_unfold. simpl.
  rewrite fn_lookup_insert. simpl.
  destruct (negb _); simpl; rewrite <- !app_assoc;
    (split; [reflexivity |]); (split; [| split; [reflexivity |]]).
  1,3: intros k; destruct (decide (k = layer)) as [-> | Hk];
       [rewrite !fn_lookup_insert; reflexivity
       | rewrite !fn_lookup_insert_ne by congruence; reflexivity].
  all: rewrite drop_app_length; reflexivity.
Qed.

(** ** Reading the composited image: outcome and frame *)

(** X8: [get_image] raises exactly when the host read over the bounds (the
    whole document when none are given) raises.  Otherwise it returns an
    image with the extent of those bounds; when the host's buffer holds at
    least four bytes per pixel, the image data is exactly the first
    [width * height * 4] bytes of it.  In either case no node other than
    the excluded layer is touched, of the excluded layer only the
    visibility flag can differ, and the sibling list is unchanged. *)
Theorem get_image_outcome bounds exclude_layer d :
  let b := default (Bounds.mk 0 0 (doc_width d) (doc_height d)) bounds in
  let size := Bounds.width b * Bounds.height b * 4 in
  let d' := snd (get_image bounds exclude_layer d) in
  (fst (get_image bounds exclude_layer d) = Raise HostError <-> pixelData d b = None) /\
  (forall data, pixelData d b = Some data ->
     exists img, fst (get_image bounds exclude_layer d) = Ok img /\
       img_extent img = Bounds.extent b /\
       (size <= Z.of_nat (length data) ->
        img_data img = take (Z.to_nat size) data /\
        (0 <= size -> Z.of_nat (length (img_data img)) = size))) /\
  (forall k, exclude_layer <> Some k -> nodes d' k = nodes d k) /\
  (forall k, set_visible true (nodes d' k) = set_visible true (nodes d k)) /\
  childNodes d' = childNodes d.
Proof.
  intros b size d'. subst d' size b. unfold get_image. monad_unfold.
  destruct exclude_layer as [layer |]; [destruct (node_visible (nodes d layer)) eqn:Hv |];
    destruct bounds as [b |]; simpl;
    destruct (pixelData d _) as [data |]; simpl;
    (split; [split; [try discriminate; reflexivity | try discriminate; reflexivity] |]);
    (split; [intros data' [= <-] || (intros data' [=]) |]);
    try (eexists; split; [reflexivity |]; split; [reflexivity |];
         intros Hlen; split; [reflexivity |]; intros Hsize; simpl;
         rewrite length_take; lia);
    (split; [| split; [| reflexivity]]);
    intros k; try reflexivity; try intros Hk;
    (destruct (decide (k = layer)) as [-> | Hne];
     [try congruence; rewrite ?fn_lookup_insert; reflexivity
     | rewrite ?fn_lookup_insert_ne by congruence; reflexivity]).
Qed.

Lemma get_image_hides_and_raises_witness :
  fst (get_image (Some (Bounds.mk 0 0 8 8)) (Some 2%nat) failing_read_doc) = Raise HostError /\
  node_visible (nodes (snd (get_image (Some (Bounds.mk 0 0 8 8)) (Some 2%nat) failing_read_doc))
                  2%nat) = false.
Proof.
  destruct (get_image_hides_and_raises (Some (Bounds.mk 0 0 8 8)) 2%nat failing_read_doc
              eq_refl eq_refl) as (Hres & Hvis & _).
  split; [exact Hres | exact Hvis].
Defined.

(** ** Choosing the anchor, and inserting *)

Lemma find_layer_above_pure below d : snd (_find_layer_above below d) = d.
Proof.
  destruct below as [L |]; [| reflexivity].
  unfold _find_layer_above. monad_unfold.
  destruct (index L (childNodes d)) as [i |]; [| reflexivity].
  destruct (1 <=? i)%nat; [| reflexivity].
  by destruct (childNodes d !! (i - 1)%nat).
Qed.

(** X9: [_find_layer_above] never changes the document and never raises
    [IndexError].  It raises [ValueError] exactly when the reference layer
    is not a child of the root, answers [None] exactly when the reference
    layer is the first child, and otherwise answers the sibling that stands
    directly before the first occurrence of the reference layer. *)
Theorem find_layer_above_outcome d L :
  snd (_find_layer_above (Some L) d) = d /\
  match fst (_find_layer_above (Some L) d) with
  | Raise e => e = ValueError /\ L ∉ childNodes d
  | Ok None => exists l, childNodes d = L :: l
  | Ok (Some a) => exists l1 l2, childNodes d = l1 ++ a :: L :: l2 /\ (L ∉ l1) /\ a <> L
  end.
Proof.
  split; [apply find_layer_above_pure |].
  destruct (decide (L ∈ childNodes d)) as [Hin | Hout].
  - apply list_elem_of_split_l in Hin as (l1 & l2 & Hc & HL).
    rewrite (find_layer_above_sibling d L l1 l2 Hc HL). simpl.
    destruct l1 as [| a l1] using rev_ind.
    + simpl. by exists l2.
    + rewrite last_snoc. exists l1, l2. rewrite Hc, <- app_assoc. simpl.
      split; [reflexivity |]. rewrite elem_of_app in HL. split; [tauto |].
      intros ->. apply HL. right. left.
  - rewrite (find_layer_above_not_a_child d L Hout). simpl. tauto.
Qed.

Section InsertMoreFacts.

Variable svg_shapes : string -> list Shape.
Variable host_addChildNode : QUuid -> option QUuid -> list QUuid -> list QUuid.

(** X10: when the reference layer is not a child of the root, both insert
    methods raise [ValueError] after the node has been created: the node
    exists in the host but is not added to the tree, and no pixel write,
    shape write or recomposite is issued. *)
Theorem insert_layer_missing_reference name img bounds svg d L :
  L ∉ childNodes d ->
  let raster := insert_layer host_addChildNode name img bounds (Some L) d in
  let vector := insert_vector_layer svg_shapes host_addChildNode name svg (Some L) d in
  (fst raster = Raise ValueError /\
   childNodes (snd raster) = childNodes d /\ calls (snd raster) = calls d /\
   next_node (snd raster) = S (next_node d) /\
   nodes (snd raster) (next_node d) = mkNode name "paintlayer" true (mkQRect 0 0 0 0) []) /\
  (fst vector = Raise ValueError /\
   childNodes (snd vector) = childNodes d /\ calls (snd vector) = calls d /\
   next_node (snd vector) = S (next_node d) /\
   nodes (snd vector) (next_node d) = mkNode name "vectorlayer" true (mkQRect 0 0 0 0) []).
Proof.
  intros HL raster vector. subst raster vector.
  unfold insert_layer, insert_vector_layer.
  repeat split.
  all: unfold bind at 1; unfold createNode at 1; cbv beta iota.
  all: unfold bind at 1.
  all: rewrite find_layer_above_not_a_child by (simpl; exact HL).
  all: simpl; rewrite ?fn_lookup_insert; reflexivity.
Qed.




End InsertMoreFacts.

Lemma insert_layer_missing_reference_witness :
  fst (insert_layer sample_addChildNode "Result" sample_image (Bounds.mk 0 0 1 1) (Some 7%nat)
         three_layer_doc)
  = Raise ValueError /\
  childNodes (snd (insert_layer sample_addChildNode "Result" sample_image (Bounds.mk 0 0 1 1)
                     (Some 7%nat) three_layer_doc)) = [0; 1; 2]%nat /\
  next_node (snd (insert_layer sample_addChildNode "Result" sample_image (Bounds.mk 0 0 1 1)
                    (Some 7%nat) three_layer_doc)) = 9%nat.
Proof.
  assert (H : 7%nat ∉ childNodes three_layer_doc).
  { simpl. rewrite !elem_of_cons, elem_of_nil. intros [? | [? | [? | []]]]; discriminate. }
  destruct (insert_layer_missing_reference sample_svg_shapes sample_addChildNode "Result"
              sample_image (Bounds.mk 0 0 1 1) "<g/>" three_layer_doc 7%nat H)
    as ((Hr & Hc & _ & Hn & _) & _).
  split; [exact Hr |]. split; [exact Hc | exact Hn].
Defined.


(** ** Mask extraction: what is left untouched, and NaN amounts *)

Section MaskMoreFacts.

Variable host_grow : Z -> Z -> Selection -> Selection.
Variable host_feather : Z -> Selection -> Selection.

(** X12: on every path (no selection, full-document selection, a mask, or
    an exception from [int]) [create_mask_from_selection] leaves every
    selection object that existed before the call as it was, the live one
    included; it allocates at most one new selection object and touches
    neither the nodes, the sibling list nor the call log. *)
Theorem create_mask_from_selection_frame grow feather d :
  let d' := snd (create_mask_from_selection host_grow host_feather grow feather d) in
  (forall k, (k < next_selection d)%nat -> selections d' k = selections d k) /\
  (next_selection d <= next_selection d' <= S (next_selection d))%nat /\
  selection d' = selection d /\
  nodes d' = nodes d /\
  childNodes d' = childNodes d /\
  calls d' = calls d.
Proof.
  intros d'. subst d'.
  unfold create_mask_from_selection, bind, gets, lift, duplicate.
  destruct (selection d) as [us |] eqn:Hsel; simpl; [| rewrite Hsel; repeat split; lia].
  destruct (_selection_is_entire_document _ _); simpl; [rewrite Hsel; repeat split; lia |].
  rewrite fn_lookup_insert.
  destruct (PyFloat.int (PrimFloat.mul grow _)) as [gp | e]; simpl.
  2: { rewrite Hsel. repeat split; try lia.
       intros k Hk. rewrite fn_lookup_insert_ne by lia. reflexivity. }
  destruct (PyFloat.int (PrimFloat.mul feather _)) as [fr | e]; simpl.
  2: { rewrite Hsel. repeat split; try lia.
       intros k Hk. rewrite fn_lookup_insert_ne by lia. reflexivity. }
  unfold when, update_selection, ret.
  destruct (gp >? 0); destruct (fr >? 0); simpl; rewrite Hsel; repeat split; try lia;
    intros k Hk; rewrite ?fn_lookup_insert_ne by lia; reflexivity.
Qed.

Lemma int_nan_mul f g :
  Prim2SF f = S754_nan -> PyFloat.int (PrimFloat.mul f g) = Raise ValueError.
Proof.
  intros H. unfold PyFloat.int. rewrite mul_spec, H. reflexivity.
Qed.

(** X13: a NaN amount never yields a mask.  When a selection exists that
    does not cover the whole document, a NaN [grow] makes the call raise
    [ValueError], and a NaN [feather] makes it raise as well (the error of
    [grow], if [int] already fails on it, else [ValueError]). *)
Theorem create_mask_from_selection_nan grow feather d us :
  selection d = Some us ->
  _selection_is_entire_document (selections d us) (extent d) = false ->
  (Prim2SF grow = S754_nan ->
   fst (create_mask_from_selection host_grow host_feather grow feather d) = Raise ValueError) /\
  (Prim2SF feather = S754_nan ->
   exists e, fst (create_mask_from_selection host_grow host_feather grow feather d) = Raise e).
Proof.
  intros Hsel He.
  unfold create_mask_from_selection, bind, gets, lift, duplicate.
  rewrite Hsel, He. simpl. rewrite fn_lookup_insert. split; intros Hnan.
  - rewrite (int_nan_mul grow _ Hnan). reflexivity.
  - destruct (PyFloat.int (PrimFloat.mul grow _)) as [gp | e]; simpl; [| eauto].
    rewrite (int_nan_mul feather _ Hnan). simpl. eauto.
Qed.

End MaskMoreFacts.

Lemma create_mask_from_selection_nan_witness :
  fst (create_mask_from_selection sample_grow sample_feather PrimFloat.nan 0 small_selection_doc)
  = Raise ValueError.
Proof.
  apply (proj1 (create_mask_from_selection_nan sample_grow sample_feather PrimFloat.nan 0
                  small_selection_doc 0%nat eq_refl ltac:(vm_compute; reflexivity))).
  reflexivity.
Defined.

(** ** The pose loop: what a working tick does *)

Section PoseMoreFacts.

Variable Pose : Type.
Variable Pose_new : Extent.t -> Pose.
Variable Pose_update : Pose -> list Shape -> float -> Pose * option string.
Variable svg_shapes : string -> list Shape.

Local Abbreviation tick := (update Pose_new Pose_update svg_shapes).
Local Abbreviation ticks := (run Pose_new Pose_update svg_shapes).

(** A tick that observes [layer], spelled out: the object the id is bound
    to (a new one from the document's extent if it had none) is reconciled
    in place, and the document is written to only on a truthy answer. *)
Lemma update_observing (self : PoseLayers Pose) doc layer :
  separated self ->
  activeNode doc = Some layer ->
  node_type (nodes doc layer) = "vectorlayer" ->
  let pose := default (next_pose self) (_layers self !! layer) in
  let object :=
    match _layers self !! layer with
    | Some r => poses self r
    | None => Pose_new (extent doc)
    end in
  let answer := Pose_update object (node_shapes (nodes doc layer)) (doc_resolution doc) in
  tick (Some doc) self
  = (mkPoseLayers
       (match _layers self !! layer with
        | Some _ => _layers self
        | None => <[layer := next_pose self]> (_layers self)
        end)
       (<[pose := fst answer]> (<[next_pose self := Pose_new (extent doc)]> (poses self)))
       (S (next_pose self)),
     if truthy (snd answer)
     then Some (snd (addShapesFromSvg svg_shapes layer (default EmptyString (snd answer)) doc))
     else Some doc).
Proof.
  intros [Hlt _] Hact Hty pose object answer. subst answer object pose.
  simpl. rewrite Hact, Hty. simpl. unfold setdefault.
  destruct (_layers self !! layer) as [r |] eqn:Hr; simpl.
  - rewrite fn_lookup_insert_ne by (specialize (Hlt layer r Hr); lia).
    destruct (Pose_update _ _ _) as [model changes]. simpl.
    by destruct (truthy changes).
  - rewrite fn_lookup_insert.
    destruct (Pose_update _ _ _) as [model changes]. simpl.
    by destruct (truthy changes).
Qed.

(** X14: a tick on an active vector layer reconciles the pose object bound
    to the layer's id and writes to the layer exactly when the answer is a
    non-empty string: then a single [addShapesFromSvg] with that string is
    issued; on [None] or the empty string the document is left untouched. *)
Theorem update_writes_only_changes (self : PoseLayers Pose) doc layer :
  separated self ->
  activeNode doc = Some layer ->
  node_type (nodes doc layer) = "vectorlayer" ->
  let object :=
    match _layers self !! layer with
    | Some r => poses self r
    | None => Pose_new (extent doc)
    end in
  let answer := Pose_update object (node_shapes (nodes doc layer)) (doc_resolution doc) in
  (exists pose, _layers (tick (Some doc) self).1 !! layer = Some pose /\
                poses (tick (Some doc) self).1 pose = fst answer) /\
  match snd answer with
  | Some (String c s) =>
      exists doc', (tick (Some doc) self).2 = Some doc' /\
        calls doc' = calls doc ++ [AddShapesFromSvg layer (String c s)] /\
        node_shapes (nodes doc' layer)
        = node_shapes (nodes doc layer) ++ svg_shapes (String c s)
  | _ => (tick (Some doc) self).2 = Some doc
  end.
Proof.
  intros Hsep Hact Hty object answer.
  rewrite (update_observing self doc layer Hsep Hact Hty). fold object. fold answer. simpl.
  split.
  - exists (default (next_pose self) (_layers self !! layer)).
    rewrite fn_lookup_insert. split; [| reflexivity].
    destruct (_layers self !! layer) as [r |] eqn:Hr; simpl; [exact Hr |].
    by rewrite lookup_insert_eq.
  - destruct (snd answer) as [[| c s] |]; simpl; try reflexivity.
    eexists. split; [reflexivity |]. simpl. rewrite fn_lookup_insert. split; reflexivity.
Qed.

Lemma update_separated active (self : PoseLayers Pose) :
  separated self -> separated (tick active self).1.
Proof.
  intros Hsep.
  destruct active as [doc |]; [| exact Hsep].
  destruct (activeNode doc) as [layer |] eqn:Hact; [| simpl; by rewrite Hact].
  destruct (String.eqb_spec (node_type (nodes doc layer)) "vectorlayer") as [Hty | Hty].
  2: { simpl. rewrite Hact. apply String.eqb_neq in Hty. by rewrite Hty. }
  rewrite (update_observing self doc layer Hsep Hact Hty). simpl.
  destruct Hsep as [Hlt Hinj].
  destruct (_layers self !! layer) as [r |] eqn:Hr; split; simpl.
  - intros key pose Hk. specialize (Hlt key pose Hk). lia.
  - exact Hinj.
  - intros key pose Hk. destruct (decide (layer = key)) as [-> | Hne].
    + rewrite lookup_insert_eq in Hk. injection Hk as <-. lia.
    + rewrite lookup_insert_ne in Hk by done. specialize (Hlt key pose Hk). lia.
  - intros key key' pose Hk Hk'.
    destruct (decide (layer = key)) as [<- | Hne];
      destruct (decide (layer = key')) as [<- | Hne']; [reflexivity | | |].
    + rewrite lookup_insert_eq in Hk. injection Hk as <-.
      rewrite lookup_insert_ne in Hk' by done. specialize (Hlt key' _ Hk'). lia.
    + rewrite lookup_insert_eq in Hk'. injection Hk' as <-.
      rewrite lookup_insert_ne in Hk by done. specialize (Hlt key _ Hk). lia.
    + rewrite lookup_insert_ne in Hk, Hk' by done. by apply (Hinj key key' pose).
Qed.

(** X15: no two layer ids ever share a pose object.  Starting from the
    empty map, after any sequence of ticks every bound object has been
    allocated and distinct ids are bound to distinct objects. *)
Theorem run_separated (env : list (option Doc)) (store : nat -> Pose) :
  separated (ticks env (mkPoseLayers ∅ store 0)).
Proof.
  assert (H : forall env (self : PoseLayers Pose), separated self -> separated (ticks env self)).
  { clear env. intros env. induction env as [| active env IH]; intros self Hsep; simpl;
      [exact Hsep | apply IH, update_separated, Hsep]. }
  apply H. split; simpl; intros *; rewrite lookup_empty; discriminate.
Qed.

(** X16: a tick reconciles only the layer it observes.  The pose object
    bound to any other id is exactly as it was before the tick. *)
Theorem update_leaves_other_poses active (self : PoseLayers Pose) key pose :
  separated self ->
  _layers self !! key = Some pose ->
  ~ observes active key ->
  _layers (tick active self).1 !! key = Some pose /\
  poses (tick active self).1 pose = poses self pose.
Proof.
  intros Hsep Hk Hobs.
  destruct active as [doc |]; [| by split].
  destruct (activeNode doc) as [layer |] eqn:Hact; [| simpl; rewrite Hact; by split].
  destruct (String.eqb_spec (node_type (nodes doc layer)) "vectorlayer") as [Hty | Hty].
  2: { simpl. rewrite Hact. apply String.eqb_neq in Hty. rewrite Hty. by split. }
  assert (Hne : layer <> key).
  { intros ->. apply Hobs. by exists doc. }
  rewrite (update_observing self doc layer Hsep Hact Hty). simpl.
  destruct Hsep as [Hlt Hinj]. pose proof (Hlt key pose Hk) as Hp.
  split.
  - destruct (_layers self !! layer); [exact Hk | by rewrite lookup_insert_ne].
  - rewrite fn_lookup_insert_ne.
    + rewrite fn_lookup_insert_ne by lia. reflexivity.
    + destruct (_layers self !! layer) as [r |] eqn:Hr; simpl; [| lia].
      intros ->. by apply Hne, (Hinj layer key pose).
Qed.

(** X17: the skeleton model persists between ticks.  When a layer is first
    observed a model is created from that document's extent; a later tick
    that observes the same id reconciles that very model, as the first tick
    left it, and the extent of the later document plays no part. *)
Theorem update_twice_threads_model (self : PoseLayers Pose) doc1 doc2 layer :
  separated self ->
  _layers self !! layer = None ->
  observes (Some doc1) layer ->
  observes (Some doc2) layer ->
  let first := (tick (Some doc1) self).1 in
  let second := (tick (Some doc2) first).1 in
  let model1 :=
    fst (Pose_update (Pose_new (extent doc1)) (node_shapes (nodes doc1 layer))
           (doc_resolution doc1)) in
  _layers second !! layer = Some (next_pose self) /\
  poses first (next_pose self) = model1 /\
  poses second (next_pose self)
  = fst (Pose_update model1 (node_shapes (nodes doc2 layer)) (doc_resolution doc2)).
Proof.
  intros Hsep Hnone (d1 & [= <-] & Hact1 & Hty1) (d2 & [= <-] & Hact2 & Hty2) first second model1.
  pose proof (update_separated (Some doc1) self Hsep) as Hsep1. fold first in Hsep1.
  assert (Hfirst : first = mkPoseLayers (<[layer := next_pose self]> (_layers self))
                             (<[next_pose self := model1]>
                                (<[next_pose self := Pose_new (extent doc1)]> (poses self)))
                             (S (next_pose self))).
  { subst first. rewrite (update_observing self doc1 layer Hsep Hact1 Hty1).
    rewrite Hnone. reflexivity. }
  assert (Hl1 : _layers first !! layer = Some (next_pose self))
    by (rewrite Hfirst; simpl; by rewrite lookup_insert_eq).
  assert (Hp1 : poses first (next_pose self) = model1)
    by (rewrite Hfirst; simpl; by rewrite fn_lookup_insert).
  subst second. rewrite (update_observing first doc2 layer Hsep1 Hact2 Hty2).
  rewrite Hl1. simpl. rewrite fn_lookup_insert, Hp1. split; [exact Hl1 | by split].
Qed.

End PoseMoreFacts.

Lemma no_poses_separated : separated no_poses.
Proof. split; simpl; intros *; rewrite lookup_empty; discriminate. Qed.

Lemma update_writes_only_changes_witness :
  exists doc',
    (update sample_pose_new sample_pose_update sample_svg_shapes (Some pose_doc) no_poses).2
    = Some doc' /\
    calls doc' = calls pose_doc ++ [AddShapesFromSvg 3%nat "<g/>"] /\
    node_shapes (nodes doc' 3%nat) = node_shapes (nodes pose_doc 3%nat) ++ ["<g/>"].
Proof.
  exact (proj2 (update_writes_only_changes (list Shape) sample_pose_new sample_pose_update
                  sample_svg_shapes no_poses pose_doc 3%nat no_poses_separated eq_refl eq_refl)).
Defined.

Lemma update_leaves_other_poses_witness :
  let self := (update sample_pose_new sample_pose_update sample_svg_shapes (Some pose_doc)
                 no_poses).1 in
  poses (update sample_pose_new sample_pose_update sample_svg_shapes (Some paint_doc) self).1
    0%nat = ["<circle/>"].
Proof.
  intros self.
  assert (Hsep : separated self) by apply update_separated, no_poses_separated.
  assert (Hk : _layers self !! 3%nat = Some 0%nat) by reflexivity.
  assert (Hobs : ~ observes (Some paint_doc) 3%nat).
  { intros (doc & [= <-] & Hact & _). discriminate Hact. }
  destruct (update_leaves_other_poses (list Shape) sample_pose_new sample_pose_update
              sample_svg_shapes (Some paint_doc) self 3%nat 0%nat Hsep Hk Hobs) as [_ H].
  rewrite H. reflexivity.
Defined.

Lemma update_twice_threads_model_witness :
  let first := (update sample_pose_new sample_pose_update sample_svg_shapes (Some pose_doc)
                  no_poses).1 in
  let second := (update sample_pose_new sample_pose_update sample_svg_shapes (Some pose_doc)
                   first).1 in
  _layers second !! 3%nat = Some 0%nat /\ poses second 0%nat = ["<circle/>"].
Proof.
  assert (Hobs : observes (Some pose_doc) 3%nat).
  { exists pose_doc. repeat split. }
  destruct (update_twice_threads_model (list Shape) sample_pose_new sample_pose_update
              sample_svg_shapes no_poses pose_doc pose_doc 3%nat no_poses_separated eq_refl
              Hobs Hobs) as (Hl & _ & Hp).
  split; [exact Hl | exact Hp].
Defined.
